(** * The Shopkeeper: semantic search server (fastapi/main.py)

    A shallow embedding of the ranking code of [main.py] and the proofs of
    the properties the specification states about it.

    Numbers: Python floats (scores, prices, vector components) are read as
    real numbers in the ranking pipeline, so rounding error of the machine
    arithmetic is not modelled there.  The normalisation lines, which run
    on [float32] arrays, are given a second time in IEEE 754 binary32
    arithmetic (module [F32]); what is stated about their numeric outcome
    is stated on that model.  Strings are byte strings; [str.lower] and
    [str.split] are modelled on the ASCII range. *)

From Stdlib Require Import String Ascii List ZArith Reals Lra Lia Bool.
From Stdlib Require Import Sorting.Sorted Sorting.Permutation.
From Stdlib Require Import Floats.SpecFloat.
From stdpp Require Import base option gmap strings.

Import ListNotations.
#[local] Set Warnings "-register-all".
Local Open Scope string_scope.
Local Open Scope list_scope.

(* ===================================================================== *)
(** ** Python strings *)
(* ===================================================================== *)

Module PyStr.

(** [c.isupper()] on the ASCII range. *)
Definition is_upper (c : ascii) : bool :=
  let n := nat_of_ascii c in (65 <=? n)%nat && (n <=? 90)%nat.

Definition lower_char (c : ascii) : ascii :=
  if is_upper c then ascii_of_nat (nat_of_ascii c + 32) else c.

(** [s.lower()] *)
Fixpoint lower (s : string) : string :=
  match s with
  | EmptyString => EmptyString
  | String c s' => String (lower_char c) (lower s')
  end.

(** [needle in hay] for two strings: substring test. *)
Fixpoint contains (needle hay : string) : bool :=
  String.prefix needle hay ||
  match hay with
  | EmptyString => false
  | String _ hay' => contains needle hay'
  end.

(** The characters [str.split()] treats as separators. *)
Definition is_space (c : ascii) : bool :=
  let n := nat_of_ascii c in
  ((9 <=? n)%nat && (n <=? 13)%nat) || ((28 <=? n)%nat && (n <=? 32)%nat).

Definition flush (cur : string) (rest : list string) : list string :=
  match cur with
  | EmptyString => rest
  | _ => cur :: rest
  end.

Fixpoint split_from (cur s : string) : list string :=
  match s with
  | EmptyString => flush cur []
  | String c s' =>
      if is_space c then flush cur (split_from EmptyString s')
      else split_from (cur ++ String c EmptyString) s'
  end.

(** [s.split()]: maximal runs of non-blank characters. *)
Definition split (s : string) : list string := split_from EmptyString s.

(** [sep.join(parts)] *)
Definition join (sep : string) (parts : list string) : string :=
  String.concat sep parts.

(** [x in xs] for a string and a collection of strings. *)
Definition mem (x : string) (xs : list string) : bool :=
  existsb (String.eqb x) xs.

(** [list(set(xs))]: the distinct elements of [xs].  CPython iterates a
    set of strings in an order that depends on the string hashes of the
    process; the model keeps first occurrences in order, and every
    theorem about it holds for any order of the distinct elements. *)
Fixpoint list_of_set (xs : list string) : list string :=
  match xs with
  | [] => []
  | x :: xs' => x :: List.filter (fun y => negb (String.eqb x y)) (list_of_set xs')
  end.

(** [xs[:n]] *)
Definition slice_to {A} (n : nat) (xs : list A) : list A := firstn n xs.

End PyStr.

(* ===================================================================== *)
(** ** Python values, exceptions and results *)
(* ===================================================================== *)

(** The exceptions the modelled code can raise.  [TypeError],
    [AttributeError] and [IndexError] come from the interpreter,
    [AxisError] and [ValueError] from the array library; [EmptyCatalog],
    [DimensionMismatch] and [InvalidK] are the failures of the similarity
    index. *)
Inductive exn : Set :=
| TypeError | AttributeError | IndexError | AxisError | ValueError
| EmptyCatalog | DimensionMismatch | InvalidK.

Inductive result (A : Type) : Type :=
| Ok (a : A)
| Raise (e : exn).
Arguments Ok {A} a.
Arguments Raise {A} e.

Definition rbind {A B} (r : result A) (k : A -> result B) : result B :=
  match r with
  | Ok a => k a
  | Raise e => Raise e
  end.

(** A list comprehension whose element expression may raise: the first
    failing element aborts the whole comprehension. *)
Fixpoint rmap {A B} (f : A -> result B) (xs : list A) : result (list B) :=
  match xs with
  | [] => Ok []
  | x :: xs' => rbind (f x) (fun y => rbind (rmap f xs') (fun ys => Ok (y :: ys)))
  end.

(** A decoded JSON value, as [json.load] and the request parser build it. *)
Inductive json : Type :=
| JNull
| JBool (b : bool)
| JNum (x : R)
| JStr (s : string)
| JArr (xs : list json)
| JObj (kvs : list (string * json)).

Module Py.

(** [for c in v]: lists yield their elements, strings their characters,
    dicts their keys; anything else is not iterable. *)
Definition iter (v : json) : result (list json) :=
  match v with
  | JArr xs => Ok xs
  | JStr s => Ok (map (fun c => JStr (String c EmptyString)) (list_ascii_of_string s))
  | JObj kvs => Ok (map (fun kv => JStr (fst kv)) kvs)
  | JNull | JBool _ | JNum _ => Raise TypeError
  end.

(** [v.lower()]: only strings have the method. *)
Definition lower (v : json) : result string :=
  match v with
  | JStr s => Ok (PyStr.lower s)
  | _ => Raise AttributeError
  end.

(** [v == s] for a string literal [s]. *)
Definition eq_str (v : json) (s : string) : bool :=
  match v with
  | JStr t => String.eqb t s
  | _ => false
  end.

(** [d.get(key, dflt)] *)
Definition get (d : gmap string json) (key : string) (dflt : json) : json :=
  default dflt (d !! key).

End Py.

(* ===================================================================== *)
(** ** Real comparisons as tests *)
(* ===================================================================== *)

Definition Rleb (x y : R) : bool := if Rle_dec x y then true else false.
Definition Rltb (x y : R) : bool := if Rlt_dec x y then true else false.

(** [round(x, 4)]: the nearest multiple of 1/10000, ties to the even one. *)
Definition round_half_even (x : R) : Z :=
  let f := Int_part x in
  let d := frac_part x in
  if Rltb d (1 / 2) then f
  else if Rltb (1 / 2) d then (f + 1)%Z
  else if Z.even f then f else (f + 1)%Z.

Definition round4 (x : R) : R := (IZR (round_half_even (x * 10000)) / 10000)%R.

(* ===================================================================== *)
(** ** Vectors and the array operations used on them *)
(* ===================================================================== *)

Module Vec.

Definition vector := list R.

Definition sum_sq (v : vector) : R :=
  fold_right (fun x acc => (x * x + acc)%R) 0%R v.

(** [np.linalg.norm] of one row: the Euclidean norm. *)
Definition norm (v : vector) : R := sqrt (sum_sq v).

(** [norms[norms == 0] = 1] on one entry. *)
Definition guard_zero (n : R) : R := if Req_dec_T n 0 then 1%R else n.

(** [row / n] *)
Definition div_by (n : R) (v : vector) : vector := map (fun x => (x / n)%R) v.

(** The three normalisation lines on one row, in exact arithmetic; [F32]
    below has them in the arithmetic of the arrays. *)
Definition normalize (v : vector) : vector := div_by (guard_zero (norm v)) v.

Definition zeros (d : nat) : vector := repeat 0%R d.

(** Inner product of two rows of one dimension. *)
Fixpoint dot_aux (a b : vector) : R :=
  match a, b with
  | x :: a', y :: b' => (x * y + dot_aux a' b')%R
  | _, _ => 0%R
  end.

Definition dot (a b : vector) : result R :=
  if (length a =? length b)%nat then Ok (dot_aux a b) else Raise DimensionMismatch.

(** [np.array(rows)]: a list of equal-length rows becomes a 2-D array;
    the empty list becomes a 1-D array of shape (0,); rows of different
    lengths are refused. *)
Inductive ndarray : Type :=
| Arr1 (xs : list R)
| Arr2 (ncols : nat) (rows : list vector).

Definition np_array (rows : list vector) : result ndarray :=
  match rows with
  | [] => Ok (Arr1 [])
  | r :: rs =>
      if forallb (fun r' => (length r' =? length r)%nat) rs
      then Ok (Arr2 (length r) rows)
      else Raise ValueError
  end.

(** [np.linalg.norm(a, axis=1, keepdims=True)]: one norm per row; a 1-D
    array has no axis 1. *)
Definition linalg_norm_axis1 (a : ndarray) : result (list R) :=
  match a with
  | Arr1 _ => Raise AxisError
  | Arr2 _ rows => Ok (map norm rows)
  end.

(** [a / norms] with [norms] of shape (N, 1): row i is divided by
    entry i. *)
Definition div_rows (a : ndarray) (norms : list R) : ndarray :=
  match a with
  | Arr1 xs => Arr1 xs
  | Arr2 d rows => Arr2 d (map (fun rn => div_by (snd rn) (fst rn)) (combine rows norms))
  end.

(** [a.shape[1]] *)
Definition shape1 (a : ndarray) : result nat :=
  match a with
  | Arr1 _ => Raise IndexError
  | Arr2 d _ => Ok d
  end.

(** Lines 129-131 and 199-201 on a whole array. *)
Definition normalize_rows (a : ndarray) : result ndarray :=
  rbind (linalg_norm_axis1 a) (fun norms =>
  let norms := map guard_zero norms in
  Ok (div_rows a norms)).

End Vec.

(* ===================================================================== *)
(** ** The normalisation lines in single precision *)
(* ===================================================================== *)

(** [astype("float32")] (lines 127 and 197) makes the arrays binary32, and
    so every operation of lines 129-131 and 199-201: the squares, their
    sum, the square root, the test [norms == 0] and the division.  [F32]
    repeats these lines on the IEEE 754 binary32 format (24 bits of
    precision, exponents up to 2^127, rounding to nearest even), with the
    operations of the standard library's [SpecFloat].

    The squares of a row are added here from left to right, starting from
    +0.  numpy may group the additions of a long row differently; a row of
    at most two entries, a row of zeros and a row with a NaN in it have
    the same sum in any grouping, and what is stated under a hypothesis on
    the computed norm does not look at the way it was computed. *)
Module F32.

Definition prec : Z := 24.
Definition emax : Z := 128.

(** A binary32 value: a signed zero, a signed infinity, NaN, or a finite
    [(-1)^s * m * 2^e]. *)
Definition float32 : Type := spec_float.

Definition mul (x y : float32) : float32 := SFmul prec emax x y.
Definition add (x y : float32) : float32 := SFadd prec emax x y.
Definition sub (x y : float32) : float32 := SFsub prec emax x y.
Definition div (x y : float32) : float32 := SFdiv prec emax x y.
Definition sqrt (x : float32) : float32 := SFsqrt prec emax x.

(** [x == y] and [x < y]; both are false when a side is NaN, and the two
    zeros are equal. *)
Definition eqb (x y : float32) : bool := SFeqb x y.

(** The binary32 value nearest to [m * 2^e]. *)
Definition lit (m e : Z) : float32 := binary_normalize prec emax m e false.

Definition zero : float32 := S754_zero false.
Definition one : float32 := lit 1 0.


Definition is_nan (x : float32) : bool :=
  match x with S754_nan => true | _ => false end.

Definition is_finite (x : float32) : bool :=
  match x with S754_zero _ | S754_finite _ _ _ => true | _ => false end.

(** The zero that has the sign of [x]. *)
Definition signed_zero (x : float32) : float32 :=
  match x with
  | S754_zero s | S754_infinity s | S754_finite s _ _ => S754_zero s
  | S754_nan => S754_nan
  end.

Definition vector := list float32.

(** The sum under the root of [np.linalg.norm]: the squares of one row. *)
Definition sum_sq (v : vector) : float32 :=
  fold_left (fun acc x => add acc (mul x x)) v zero.

(** [np.linalg.norm] of one row. *)
Definition norm (v : vector) : float32 := sqrt (sum_sq v).

(** [norms[norms == 0] = 1] on one entry. *)
Definition guard_zero (n : float32) : float32 := if eqb n zero then one else n.

(** [row / n] *)
Definition div_by (n : float32) (v : vector) : vector := map (fun x => div x n) v.

(** The three normalisation lines on one row. *)
Definition normalize (v : vector) : vector := div_by (guard_zero (norm v)) v.

(** Lines 129-131 on the rows of a 2-D array. *)
Definition normalize_rows (rows : list vector) : list vector :=
  let norms := map norm rows in
  let norms := map guard_zero norms in
  map (fun rn => div_by (snd rn) (fst rn)) (combine rows norms).

End F32.

(* ===================================================================== *)
(** ** Catalog items *)
(* ===================================================================== *)

(** One record of products_data.json.  The collections read with
    [p.get(key, [])] are lists, an absent key being the empty list;
    [subcategory] and [gender] are read with [p.get(key)] and may be
    absent. *)
Record product : Type := mkProduct {
  p_id : Z;
  p_name : string;
  p_description : string;
  p_price : R;
  p_category : string;
  p_subcategory : option string;
  p_gender : option string;
  p_colors : list string;
  p_sizes : list string;
  p_tags : list string;
  p_occasions : list string;
  p_seasons : list string;
  p_materials : list string;
  p_rating : R;
  p_reviews : Z;
  p_stock : Z
}.

(** [build_text(p)] *)
Definition build_text (p : product) : string :=
  let parts :=
    [ p_name p;
      p_description p;
      p_category p;
      default "" (p_subcategory p);
      default "" (p_gender p);
      PyStr.join " " (p_tags p);
      PyStr.join " " (p_occasions p);
      PyStr.join " " (p_seasons p);
      PyStr.join " " (p_materials p);
      PyStr.join " " (p_colors p) ] in
  PyStr.join " " parts.

(* ===================================================================== *)
(** ** Match reasons *)
(* ===================================================================== *)

(** [set(query_lower.split())] *)
Definition query_words_of (query_lower : string) : list string :=
  PyStr.list_of_set (PyStr.split query_lower).

(** The test of the tag and occasion loops (lines 83 and 88). *)
Definition word_or_substring (query_words : list string) (s : string) : bool :=
  PyStr.mem (PyStr.lower s) query_words
  || existsb (fun w => PyStr.contains w (PyStr.lower s)) query_words.

(** The test of the season loop and of category and subcategory. *)
Definition exact_word (query_words : list string) (s : string) : bool :=
  PyStr.mem (PyStr.lower s) query_words.

(** The list [reasons] as it stands before line 102. *)
Definition collect_reasons (p : product) (query_words : list string) : list string :=
  List.filter (word_or_substring query_words) (p_tags p)
  ++ List.filter (word_or_substring query_words) (p_occasions p)
  ++ List.filter (exact_word query_words) (p_seasons p)
  ++ (if exact_word query_words (p_category p) then [p_category p] else [])
  ++ (if exact_word query_words (default "" (p_subcategory p))
      then [default "" (p_subcategory p)] else []).

(** [compute_match_reasons(product, query_lower)] *)
Definition compute_match_reasons (p : product) (query_lower : string) : list string :=
  let query_words := query_words_of query_lower in
  let reasons := collect_reasons p query_words in
  PyStr.slice_to 5 (PyStr.list_of_set reasons).

(* ===================================================================== *)
(** ** Personalization boosts and one result row *)
(* ===================================================================== *)

(** [fav_colors] of line 209. *)
Definition fav_colors_of (user_prefs : gmap string json) : result (list string) :=
  rbind (Py.iter (Py.get user_prefs "favorite_colors" (JArr []))) (rmap Py.lower).

(** [budget] of line 210. *)
Definition budget_of (user_prefs : gmap string json) : json :=
  Py.get user_prefs "budget" (JStr "").

(** [any(fc in pc for fc in fav_colors for pc in product_colors)] *)
Definition any_color_match (fav_colors product_colors : list string) : bool :=
  existsb (fun fc => existsb (fun pc => PyStr.contains fc pc) product_colors) fav_colors.

(** Lines 221-224: the colour rule applied to the running score. *)
Definition color_boost (fav_colors : list string) (p : product) (score : R) : R :=
  match fav_colors with
  | [] => score
  | _ :: _ =>
      let product_colors := map PyStr.lower (p_colors p) in
      if any_color_match fav_colors product_colors then (score + 0.05)%R else score
  end.

(** Lines 227-233: the budget rule applied to the running score. *)
Definition budget_boost (budget : json) (p : product) (score : R) : R :=
  let price := p_price p in
  if Py.eq_str budget "low" && Rltb price 80 then (score + 0.05)%R
  else if Py.eq_str budget "medium" && (Rleb 50 price && Rleb price 200) then (score + 0.03)%R
  else if Py.eq_str budget "high" && Rltb 150 price then (score + 0.02)%R
  else score.

(** The score after both rules, before rounding. *)
Definition boosted_score (fav_colors : list string) (budget : json)
    (p : product) (score : R) : R :=
  budget_boost budget p (color_boost fav_colors p score).

Record ProductResult : Type := mkResult {
  r_id : Z;
  r_name : string;
  r_description : string;
  r_price : R;
  r_category : string;
  r_subcategory : option string;
  r_gender : option string;
  r_colors : list string;
  r_sizes : list string;
  r_tags : list string;
  r_occasions : list string;
  r_seasons : list string;
  r_rating : R;
  r_reviews : Z;
  r_stock : Z;
  similarity_score : R;
  match_reasons : list string
}.

(** The body of the loop of line 212 for one retrieved product: boosts,
    match reasons and the assembled row. *)
Definition score_product (fav_colors : list string) (budget : json)
    (query : string) (p : product) (score : R) : ProductResult :=
  let score := boosted_score fav_colors budget p score in
  let match_reasons := compute_match_reasons p (PyStr.lower query) in
  {| r_id := p_id p;
     r_name := p_name p;
     r_description := p_description p;
     r_price := p_price p;
     r_category := p_category p;
     r_subcategory := p_subcategory p;
     r_gender := p_gender p;
     r_colors := p_colors p;
     r_sizes := p_sizes p;
     r_tags := p_tags p;
     r_occasions := p_occasions p;
     r_seasons := p_seasons p;
     r_rating := p_rating p;
     r_reviews := p_reviews p;
     r_stock := p_stock p;
     similarity_score := round4 score;
     match_reasons := match_reasons |}.

(* ===================================================================== *)
(** ** Sorting *)
(* ===================================================================== *)

(** A stable sort by insertion, standing for [list.sort]: an element is
    placed before the first later element it is [leb] to, so elements that
    compare equal keep their order. *)
Section StableSort.
Context {A : Type} (leb : A -> A -> bool).

Fixpoint insert (x : A) (l : list A) : list A :=
  match l with
  | [] => [x]
  | y :: l' => if leb x y then x :: y :: l' else y :: insert x l'
  end.

Definition sort (l : list A) : list A := fold_right insert [] l.

(** The order the sort works with, as a relation. *)
Definition leb_rel (a b : A) : Prop := leb a b = true.
End StableSort.

(** The key order of [results.sort(key=lambda r: r.similarity_score,
    reverse=True)]. *)
Definition score_geb (a b : ProductResult) : bool :=
  Rleb (similarity_score b) (similarity_score a).

Definition sort_results (rs : list ProductResult) : list ProductResult :=
  sort score_geb rs.

(* ===================================================================== *)
(** ** The similarity index *)
(* ===================================================================== *)

(** Modelled from the spec: the similarity index of section 4.2.  The
    repository delegates it to [faiss.IndexFlatIP], whose code is not part
    of the sources; the record holds the stored vectors in catalog order
    with their common dimension. *)
Record IndexFlatIP : Type := mkIndex {
  ix_dimension : nat;
  ix_vectors : list Vec.vector
}.

(** Modelled from the spec: [faiss.IndexFlatIP(dimension)], an index
    with no vector yet. *)
Definition index_new (dimension : nat) : IndexFlatIP :=
  {| ix_dimension := dimension; ix_vectors := [] |}.

(** Modelled from the spec: [index.add(embeddings)], the build step of
    section 4.2, which stores the rows of a 2-D array after the vectors
    already held, one per catalog item in catalog order, and fails with
    [EmptyCatalog] when given zero items.  The normalisation the spec
    makes part of the build is done by lines 129-131 on the rows before
    they are handed over. *)
Definition index_add (ix : IndexFlatIP) (a : Vec.ndarray) : result IndexFlatIP :=
  match a with
  | Vec.Arr2 _ [] => Raise EmptyCatalog
  | Vec.Arr2 _ rows =>
      Ok {| ix_dimension := ix_dimension ix; ix_vectors := ix_vectors ix ++ rows |}
  | Vec.Arr1 _ => Raise ValueError
  end.

(** Modelled from the spec: the order of the search result, score
    descending and, on equal scores, catalog position ascending. *)
Definition hit_leb (a b : Z * R) : bool :=
  if Rltb (snd b) (snd a) then true
  else if Rltb (snd a) (snd b) then false
  else (fst a <=? fst b)%Z.

(** Modelled from the spec: the catalog positions 0 to [n - 1], in
    order. *)
Definition positions (n : nat) : list Z := map Z.of_nat (seq 0 n).

(** Modelled from the spec: [search(query_vector, k)] of section 4.2.  The
    query is normalised, its inner product with every stored vector is
    computed by a linear scan, and the [k] best (position, score) pairs
    are returned in the order [hit_leb]; [k <= 0] fails with [InvalidK]
    and a vector of another dimension with [DimensionMismatch]; a [k]
    above the number of stored vectors returns them all. *)
Definition index_search (ix : IndexFlatIP) (q : Vec.vector) (k : Z)
  : result (list (Z * R)) :=
  if (k <=? 0)%Z then Raise InvalidK
  else
    rbind (rmap (Vec.dot (Vec.normalize q)) (ix_vectors ix)) (fun scores =>
    let scored := combine (positions (length scores)) scores in
    Ok (firstn (Z.to_nat k) (sort hit_leb scored))).

(** Modelled from the spec: [index.search(queries, k)] on a 2-D array of
    queries: one result list per query row. *)
Definition index_search_rows (ix : IndexFlatIP) (queries : Vec.ndarray) (k : Z)
  : result (list (list (Z * R))) :=
  match queries with
  | Vec.Arr2 _ rows => rmap (fun q => index_search ix q k) rows
  | Vec.Arr1 _ => Raise ValueError
  end.

(* ===================================================================== *)
(** ** Process state and the effects of the handlers *)
(* ===================================================================== *)

(** The text encoder, a black box: one vector per text. *)
Record TextEmbedding : Type := mkModel { embed_one : string -> Vec.vector }.

(** [model.embed(texts)] *)
Definition embed (m : TextEmbedding) (texts : list string) : list Vec.vector :=
  map (embed_one m) texts.

(** The module globals of lines 53-56 and, last, the list [results] local
    to the request being served. *)
Record store : Type := mkStore {
  products : list product;
  product_texts : list string;
  index : option IndexFlatIP;
  model : option TextEmbedding;
  results : list ProductResult
}.

(** A computation reads and writes the store and returns or raises. *)
Definition M (A : Type) : Type := store -> result A * store.

Definition ret {A} (a : A) : M A := fun s => (Ok a, s).

Definition bind {A B} (c : M A) (k : A -> M B) : M B :=
  fun s =>
    match c s with
    | (Ok a, s') => k a s'
    | (Raise e, s') => (Raise e, s')
    end.

(** A pure step that may raise. *)
Definition lift {A} (r : result A) : M A := fun s => (r, s).

Declare Scope py_scope.
Delimit Scope py_scope with py.
Notation "'let!' x ':=' c 'in' k" := (bind c (fun x => k))
  (at level 10, x name, c at level 100, k at level 200) : py_scope.
Notation "c ';>' k" := (bind c (fun _ => k))
  (at level 100, k at level 200, right associativity) : py_scope.

Definition get_products : M (list product) := fun s => (Ok (products s), s).
Definition get_product_texts : M (list string) := fun s => (Ok (product_texts s), s).
Definition get_index : M (option IndexFlatIP) := fun s => (Ok (index s), s).
Definition get_model : M (option TextEmbedding) := fun s => (Ok (model s), s).
Definition get_results : M (list ProductResult) := fun s => (Ok (results s), s).

Definition set_products (ps : list product) : M unit :=
  fun s => (Ok tt, mkStore ps (product_texts s) (index s) (model s) (results s)).
Definition set_product_texts (ts : list string) : M unit :=
  fun s => (Ok tt, mkStore (products s) ts (index s) (model s) (results s)).
Definition set_index (ix : IndexFlatIP) : M unit :=
  fun s => (Ok tt, mkStore (products s) (product_texts s) (Some ix) (model s) (results s)).
Definition set_model (m : TextEmbedding) : M unit :=
  fun s => (Ok tt, mkStore (products s) (product_texts s) (index s) (Some m) (results s)).

(** [results = []], [results.append(r)] and [results.sort(...)]. *)
Definition results_new : M unit :=
  fun s => (Ok tt, mkStore (products s) (product_texts s) (index s) (model s) []).
Definition results_append (r : ProductResult) : M unit :=
  fun s => (Ok tt, mkStore (products s) (product_texts s) (index s) (model s)
                     (results s ++ [r])).
Definition results_sort : M unit :=
  fun s => (Ok tt, mkStore (products s) (product_texts s) (index s) (model s)
                     (sort_results (results s))).

(** [for x in xs: body(x)] *)
Fixpoint for_each {A} (xs : list A) (body : A -> M unit) : M unit :=
  match xs with
  | [] => ret tt
  | x :: xs' => bind (body x) (fun _ => for_each xs' body)
  end.

Local Open Scope py_scope.

(** [index.add(a)] on the index the global is bound to. *)
Definition index_add_in_place (a : Vec.ndarray) : M unit :=
  let! ix := get_index in
  match ix with
  | Some ix => let! built := lift (index_add ix a) in set_index built
  | None => lift (Raise AttributeError)
  end.

(** [startup_load_products()].  The catalog read from products_data.json
    and the encoder built by [TextEmbedding(...)] come from outside. *)
Definition startup_load_products (catalog : list product) (encoder : TextEmbedding)
  : M unit :=
  set_products catalog ;>
  let! ps := get_products in
  set_product_texts (map build_text ps) ;>
  set_model encoder ;>
  let! texts := get_product_texts in
  let raw_embeddings := embed encoder texts in
  let! embeddings := lift (Vec.np_array raw_embeddings) in
  let! embeddings := lift (Vec.normalize_rows embeddings) in
  let! dimension := lift (Vec.shape1 embeddings) in
  set_index (index_new dimension) ;>
  index_add_in_place embeddings.

Record SearchRequest : Type := mkRequest {
  query : string;
  user_preferences : gmap string json;
  top_k : Z
}.

(** The field constraints of [SearchRequest], checked before the handler
    runs. *)
Definition valid_request (r : SearchRequest) : bool :=
  (1 <=? String.length (query r))%nat && (String.length (query r) <=? 500)%nat
  && (1 <=? top_k r)%Z && (top_k r <=? 20)%Z.

(** [SearchResponse] without [search_time_ms], which is read off the
    clock. *)
Record SearchResponse : Type := mkResponse {
  resp_products : list ProductResult;
  resp_query : string;
  total_results : nat
}.

Inductive http_response : Type :=
| NotReady503
| SearchOk (resp : SearchResponse).

(** The body of the loop of line 212 on one (position, score) pair. *)
Definition search_step (fav_colors : list string) (budget : json) (q : string)
    (hit : Z * R) : M unit :=
  let idx := fst hit in
  let! ps := get_products in
  if (idx <? 0)%Z || (Z.of_nat (length ps) <=? idx)%Z then ret tt
  else
    match nth_error ps (Z.to_nat idx) with
    | Some p => results_append (score_product fav_colors budget q p (snd hit))
    | None => lift (Raise IndexError)
    end.

(** [search_products(request, search_request)] *)
Definition search_products (search_request : SearchRequest) : M http_response :=
  let! ix := get_index in
  let! m := get_model in
  match ix, m with
  | Some ix, Some m =>
      let raw_query := embed m [query search_request] in
      let! query_embedding := lift (Vec.np_array raw_query) in
      let! query_embedding := lift (Vec.normalize_rows query_embedding) in
      let! found := lift (index_search_rows ix query_embedding (top_k search_request)) in
      results_new ;>
      let user_prefs := user_preferences search_request in
      let! fav_colors := lift (fav_colors_of user_prefs) in
      let budget := budget_of user_prefs in
      for_each (nth 0 found []) (search_step fav_colors budget (query search_request)) ;>
      results_sort ;>
      let! rs := get_results in
      ret (SearchOk {| resp_products := rs;
                       resp_query := query search_request;
                       total_results := length rs |})
  | _, _ => ret NotReady503
  end.

(* ===================================================================== *)
(** ** Vocabulary of the statements *)
(* ===================================================================== *)

(** The result rows are in descending order of their score. *)
Definition score_desc (a b : ProductResult) : Prop :=
  (similarity_score b <= similarity_score a)%R.

(** Two stores with the same module globals. *)
Definition same_globals (s s' : store) : Prop :=
  products s' = products s
  /\ product_texts s' = product_texts s
  /\ index s' = index s
  /\ model s' = model s.

(** A computation that never writes a module global. *)
Definition read_only {A} (c : M A) : Prop :=
  forall s, same_globals s (snd (c s)).

Definition with_results (s : store) (rs : list ProductResult) : store :=
  mkStore (products s) (product_texts s) (index s) (model s) rs.

(** The rows one retrieved pair contributes: none when its position is
    outside the catalog, else the row of the product at that position. *)
Definition row_of_hit (fav_colors : list string) (budget : json) (q : string)
    (ps : list product) (hit : Z * R) : list ProductResult :=
  if (fst hit <? 0)%Z || (Z.of_nat (length ps) <=? fst hit)%Z then []
  else
    match nth_error ps (Z.to_nat (fst hit)) with
    | Some p => [score_product fav_colors budget q p (snd hit)]
    | None => []
    end.

Definition rows_of_hits (fav_colors : list string) (budget : json) (q : string)
    (ps : list product) (hits : list (Z * R)) : list ProductResult :=
  flat_map (row_of_hit fav_colors budget q ps) hits.

(** The vector the handler hands to the index: the encoded query,
    normalised by lines 199-201. *)
Definition query_vector (m : TextEmbedding) (q : string) : Vec.vector :=
  Vec.normalize (embed_one m q).

(** The rows the handler returns for the pairs [hits]. *)
Definition ranked_rows (s : store) (req : SearchRequest) (fav_colors : list string)
    (hits : list (Z * R)) : list ProductResult :=
  sort_results
    (rows_of_hits fav_colors (budget_of (user_preferences req)) (query req)
       (products s) hits).

Definition response_of (req : SearchRequest) (rs : list ProductResult) : http_response :=
  SearchOk {| resp_products := rs; resp_query := query req; total_results := length rs |}.

(** The order of a search result, read on the pairs: a higher score comes
    first and, on equal scores, the lower catalog position. *)
Definition hit_order (a b : Z * R) : Prop :=
  (snd b < snd a)%R \/ (snd a = snd b /\ (fst a < fst b)%Z).

(** The scores of a query against the stored vectors, in catalog order. *)
Definition all_scores (ix : IndexFlatIP) (q : Vec.vector) : list R :=
  map (Vec.dot_aux (Vec.normalize q)) (ix_vectors ix).

(** Every catalog position with its score, in catalog order. *)
Definition all_hits (ix : IndexFlatIP) (q : Vec.vector) : list (Z * R) :=
  combine (positions (length (ix_vectors ix))) (all_scores ix q).

(** The store of a process before startup (lines 53-56). *)
Definition initial_store : store :=
  {| products := []; product_texts := []; index := None; model := None; results := [] |}.

(** The store of a process that serves: the index and the encoder are
    there, the index holds one vector per catalog item, and the encoder
    and the index agree on the dimension. *)
Definition ready (s : store) : Prop :=
  exists ix m,
    index s = Some ix /\ model s = Some m
    /\ length (ix_vectors ix) = length (products s)
    /\ Forall (fun v => length v = ix_dimension ix) (ix_vectors ix)
    /\ forall t, length (embed_one m t) = ix_dimension ix.

(** The budget tiers of the specification and their request strings. *)
Inductive tier : Set := Low | Medium | High.

Definition tier_name (t : tier) : string :=
  match t with
  | Low => "low"
  | Medium => "medium"
  | High => "high"
  end.

(** The colour rule in the specification's words (section 4.3): some
    preferred colour is, case-insensitively, a substring of some colour of
    the item. *)
Definition spec_color_rule (favorite_colors : list string) (p : product) : bool :=
  existsb (fun c =>
    existsb (fun pc => PyStr.contains (PyStr.lower c) (PyStr.lower pc)) (p_colors p))
    favorite_colors.

Definition spec_color_adjustment (favorite_colors : list string) (p : product) : R :=
  if spec_color_rule favorite_colors p then 0.05%R else 0%R.

(** The budget rule in the specification's words: the declared tier
    alone selects the price test. *)
Definition spec_budget_adjustment (budget : option tier) (p : product) : R :=
  match budget with
  | Some Low => if Rltb (p_price p) 80 then 0.05%R else 0%R
  | Some Medium => if Rleb 50 (p_price p) && Rleb (p_price p) 200 then 0.03%R else 0%R
  | Some High => if Rltb 150 (p_price p) then 0.02%R else 0%R
  | None => 0%R
  end.

Definition boost_values : list R :=
  [0; 0.02; 0.03; 0.05; 0.07; 0.08; 0.10]%R.

Definition is_string (v : json) : bool :=
  match v with
  | JStr _ => true
  | _ => false
  end.

(** The values of [favorite_colors] line 209 can read: a list of strings,
    and also a string or an object, whose characters or keys it then
    takes for the colours. *)
Definition colors_readable (v : json) : bool :=
  match v with
  | JArr xs => forallb is_string xs
  | JStr _ | JObj _ => true
  | JNull | JBool _ | JNum _ => false
  end.

Definition colors_field_readable (prefs : gmap string json) : bool :=
  match prefs !! "favorite_colors" with
  | None => true
  | Some v => colors_readable v
  end.

(** The two inclusion rules, read on the words of the lower-cased query. *)
Definition is_query_word (words : list string) (s : string) : Prop :=
  In (PyStr.lower s) words.

Definition has_query_word_inside (words : list string) (s : string) : Prop :=
  exists w, In w words /\ PyStr.contains w (PyStr.lower s) = true.

(** A string of the item that satisfies the rule of the field it is in. *)
Definition qualifies (p : product) (query_lower : string) (r : string) : Prop :=
  let words := PyStr.split query_lower in
  ((In r (p_tags p) \/ In r (p_occasions p))
   /\ (is_query_word words r \/ has_query_word_inside words r))
  \/ (In r (p_seasons p) /\ is_query_word words r)
  \/ (r = p_category p /\ is_query_word words r)
  \/ (p_subcategory p = Some r /\ is_query_word words r).

(* ===================================================================== *)
(** * A worked catalog *)
(* ===================================================================== *)

Definition red_dress : product :=
  {| p_id := 1; p_name := "Red Summer Dress"; p_description := "Light cotton dress";
     p_price := 59; p_category := "Dresses"; p_subcategory := Some "Casual";
     p_gender := Some "women"; p_colors := ["Dark Red"]; p_sizes := ["S"; "M"];
     p_tags := ["dress"; "summer"]; p_occasions := ["wedding"];
     p_seasons := ["Summer"]; p_materials := ["cotton"];
     p_rating := 4; p_reviews := 12; p_stock := 3 |}.

Definition leather_boots : product :=
  {| p_id := 2; p_name := "Black Leather Boots"; p_description := "Sturdy boots";
     p_price := 120; p_category := "Footwear"; p_subcategory := Some "Boots";
     p_gender := None; p_colors := ["Black"]; p_sizes := ["42"];
     p_tags := ["boots"; "leather"]; p_occasions := ["hiking"];
     p_seasons := ["Winter"]; p_materials := ["leather"];
     p_rating := 5; p_reviews := 40; p_stock := 7 |}.

Definition wool_coat : product :=
  {| p_id := 3; p_name := "Blue Wool Coat"; p_description := "Warm coat";
     p_price := 180; p_category := "Outerwear"; p_subcategory := None;
     p_gender := Some "men"; p_colors := ["Navy Blue"]; p_sizes := ["L"];
     p_tags := ["coat"; "winter"]; p_occasions := ["office"];
     p_seasons := ["Winter"]; p_materials := ["wool"];
     p_rating := 4; p_reviews := 8; p_stock := 2 |}.

Definition white_sneakers : product :=
  {| p_id := 4; p_name := "White Sneakers"; p_description := "Everyday shoes";
     p_price := 75; p_category := "Footwear"; p_subcategory := Some "Sneakers";
     p_gender := None; p_colors := ["White"]; p_sizes := ["40"; "41"];
     p_tags := ["casual"; "shoes"]; p_occasions := ["casual"];
     p_seasons := ["Spring"; "Summer"]; p_materials := ["canvas"];
     p_rating := 3; p_reviews := 5; p_stock := 11 |}.

Definition gold_watch : product :=
  {| p_id := 5; p_name := "Gold Watch"; p_description := "Dress watch";
     p_price := 250; p_category := "Accessories"; p_subcategory := Some "Watches";
     p_gender := None; p_colors := ["Gold"]; p_sizes := [];
     p_tags := ["watch"; "formal"]; p_occasions := ["wedding"; "office"];
     p_seasons := []; p_materials := ["steel"];
     p_rating := 5; p_reviews := 3; p_stock := 1 |}.

Definition demo_catalog : list product :=
  [red_dress; leather_boots; wool_coat; white_sneakers; gold_watch].

(** An encoder of dimension 2. *)
Definition demo_encoder : TextEmbedding :=
  {| embed_one := fun t => [INR (String.length t); 1%R] |}.

(** The store after startup on the worked catalog. *)
Definition demo_store : store :=
  snd (startup_load_products demo_catalog demo_encoder initial_store).

(** The store after startup on a catalog of one item. *)
Definition single_store : store :=
  snd (startup_load_products [red_dress] demo_encoder initial_store).

(** An item with six tags that all contain the word "red". *)
Definition six_red_tags : product :=
  {| p_id := 6; p_name := "Sampler"; p_description := "";
     p_price := 10; p_category := "Misc"; p_subcategory := None;
     p_gender := None; p_colors := []; p_sizes := [];
     p_tags := ["red"; "redwood"; "bored"; "tired"; "credit"; "shred"];
     p_occasions := []; p_seasons := []; p_materials := [];
     p_rating := 0; p_reviews := 0; p_stock := 0 |}.

Definition demo_prefs : gmap string json :=
  {[ "favorite_colors" := JArr [JStr "Red"]; "budget" := JStr "low" ]}.

Definition demo_request : SearchRequest :=
  {| query := "Red dress"; user_preferences := demo_prefs; top_k := 2 |}.

(** Scenario C of the specification: [top_k=20] on a catalog of 5. *)
Definition wide_request : SearchRequest :=
  {| query := "boots"; user_preferences := ∅; top_k := 20 |}.

Definition null_colors_request : SearchRequest :=
  {| query := "Red dress";
     user_preferences := {[ "favorite_colors" := JNull ]};
     top_k := 2 |}.


Definition demo_index : IndexFlatIP :=
  {| ix_dimension := 2; ix_vectors := [[1; 0]; [0; 1]; [1; 1]]%R |}.

(* ===================================================================== *)
(** * The health endpoint, the request boundary and the test script *)
(* ===================================================================== *)

Record HealthResponse : Type := mkHealth {
  h_status : string;
  products_indexed : nat;
  h_model : string;
  h_index_type : string
}.

(** [health()] *)
Definition health : M HealthResponse :=
  let! ps := get_products in
  ret {| h_status := "healthy";
         products_indexed := length ps;
         h_model := "all-MiniLM-L6-v2";
         h_index_type := "FAISS IndexFlatIP (cosine)" |}.

(** What a client of [POST /search] gets: the body is checked against the
    field constraints of [SearchRequest] (lines 143-145) and answered 422
    when it breaks one; only a body that passes reaches the handler.  The
    rate limit of line 187 is left out. *)
Inductive endpoint_response : Type :=
| Unprocessable422
| Handled (r : http_response).

Definition post_search (body : SearchRequest) : M endpoint_response :=
  if valid_request body
  then let! r := search_products body in ret (Handled r)
  else ret Unprocessable422.

Module TestSearch.

(** The counters [passed] and [failed] of test_search.py. *)
Record tally : Type := mkTally { passed : nat; failed : nat }.

(** [test(name, condition, detail)], without the printing. *)
Definition test (condition : bool) (t : tally) : tally :=
  if condition
  then {| passed := passed t + 1; failed := failed t |}
  else {| passed := passed t; failed := failed t + 1 |}.

(** A statement of a [try] block as one run of the script takes it: a call
    of [test] with the value its condition has, another statement that
    completes (a request that is answered, [r.json()] on a JSON body), or
    a statement that raises (a refused connection, a body that is not
    JSON, [data["products"]] on an error body). *)
Inductive stmt : Type :=
| Test (condition : bool)
| Completes
| Raises.

(** The body of a [try]: the statements run in order until one raises.
    The counters keep the checks made before it; the flag tells whether
    the [except] clause is entered. *)
Fixpoint run_block (b : list stmt) (t : tally) : tally * bool :=
  match b with
  | [] => (t, false)
  | Test c :: b' => run_block b' (test c t)
  | Completes :: b' => run_block b' t
  | Raises :: _ => (t, true)
  end.

(** [sys.exit(0 if failed == 0 else 1)] *)
Definition exit_code (t : tally) : Z :=
  if (failed t =? 0)%nat then 0%Z else 1%Z.

(** The script from line 36 on, as the exit status and the counters it
    ends with.  Both [except] clauses of the health block end the process
    with status 1 (lines 46-51); the [except] clause of a search block
    prints CRASHED and the script goes on (lines 70-71, 86-87, 103-104,
    111-112); line 117 turns [failed] into the exit status. *)
Definition run_script (health_block : list stmt) (search_blocks : list (list stmt))
  : Z * tally :=
  let '(t1, raised) := run_block health_block {| passed := 0; failed := 0 |} in
  if raised then (1%Z, t1)
  else
    let t := fold_left (fun acc b => fst (run_block b acc)) search_blocks t1 in
    (exit_code t, t).

End TestSearch.


(** ** Further vocabulary *)

(** A string made of separators of [str.split] only. *)
Definition is_blank (s : string) : bool :=
  forallb PyStr.is_space (list_ascii_of_string s).

(** A string with no separator of [str.split] in it. *)
Definition blank_free (s : string) : bool :=
  forallb (fun c => negb (PyStr.is_space c)) (list_ascii_of_string s).

(** The words of a list of strings, in order. *)
Definition words_of (parts : list string) : list string :=
  flat_map PyStr.split parts.

(** The conditions of the checks a block makes before it raises, if it
    does. *)
Fixpoint checks_made (b : list TestSearch.stmt) : list bool :=
  match b with
  | [] => []
  | TestSearch.Test c :: b' => c :: checks_made b'
  | TestSearch.Completes :: b' => checks_made b'
  | TestSearch.Raises :: _ => []
  end.

(** Some statement of the block raises. *)
Definition raises (b : list TestSearch.stmt) : bool :=
  existsb (fun s => match s with TestSearch.Raises => true | _ => false end) b.

(** The health block of a run against a server that answers as [health]
    does with twenty items loaded: two statements and three checks. *)
Definition healthy_block : list TestSearch.stmt :=
  [TestSearch.Completes; TestSearch.Completes;
   TestSearch.Test true; TestSearch.Test true; TestSearch.Test true].


(** A row with a square beyond the largest binary32 number. *)
Definition overflow_row : F32.vector := [F32.lit 1 100; F32.lit (-1) 0].


(** Retrieved pairs in descending order of score. *)
Definition pair_desc (a b : Z * R) : Prop := (snd b <= snd a)%R.

(** The worked request without its preferences. *)
Definition plain_request : SearchRequest :=
  {| query := "Red dress"; user_preferences := ∅; top_k := 2 |}.

(* ===================================================================== *)
(** * Properties *)
(* ===================================================================== *)

(** ** Python strings and numbers on examples *)

Example lower_ex : PyStr.lower "Dark RED-1" = "dark red-1".
Proof. reflexivity. Qed.

Example split_ex :
  PyStr.split "  summer   wedding dress " = ["summer"; "wedding"; "dress"].
Proof. reflexivity. Qed.

Example contains_ex :
  PyStr.contains "red" "dark red" = true /\ PyStr.contains "dark red" "red" = false
  /\ PyStr.contains "" "red" = true.
Proof. repeat split; reflexivity. Qed.

Example list_of_set_ex :
  PyStr.list_of_set ["a"; "b"; "a"; "c"; "b"] = ["a"; "b"; "c"].
Proof. reflexivity. Qed.

Lemma Rleb_true x y : Rleb x y = true <-> (x <= y)%R.
Proof. unfold Rleb; destruct (Rle_dec x y); split; intros; auto; discriminate. Qed.

Lemma Rleb_false x y : Rleb x y = false <-> (y < x)%R.
Proof.
  unfold Rleb; destruct (Rle_dec x y); split; intros; auto; try discriminate; lra.
Qed.

Lemma Rltb_true x y : Rltb x y = true <-> (x < y)%R.
Proof. unfold Rltb; destruct (Rlt_dec x y); split; intros; auto; discriminate. Qed.

Lemma Rltb_false x y : Rltb x y = false <-> (y <= x)%R.
Proof.
  unfold Rltb; destruct (Rlt_dec x y); split; intros; auto; try discriminate; lra.
Qed.

(** ** Normalisation *)

Module VecFacts.
Import Vec.
Local Open Scope R_scope.

Lemma sum_sq_nonneg v : 0 <= sum_sq v.
Proof.
  induction v as [|x v IH]; simpl; [lra|].
  pose proof (Rle_0_sqr x) as Hx. unfold Rsqr in Hx. lra.
Qed.

Lemma sum_sq_div_by n v : n <> 0 -> sum_sq (div_by n v) = sum_sq v / (n * n).
Proof.
  intros Hn. unfold div_by. induction v as [|x v IH]; simpl.
  - field. exact Hn.
  - rewrite IH. field. exact Hn.
Qed.

Lemma div_by_1 v : div_by 1 v = v.
Proof.
  unfold div_by. induction v as [|x v IH]; simpl; [reflexivity|].
  rewrite IH. f_equal. field.
Qed.

Lemma length_div_by n v : length (div_by n v) = length v.
Proof. unfold div_by. apply length_map. Qed.

Lemma length_normalize v : length (normalize v) = length v.
Proof. unfold normalize. apply length_div_by. Qed.

Lemma guard_zero_0 : guard_zero 0 = 1.
Proof. unfold guard_zero. destruct (Req_dec_T 0 0); [reflexivity|contradiction]. Qed.

Lemma guard_zero_nonzero n : n <> 0 -> guard_zero n = n.
Proof. intros Hn. unfold guard_zero. destruct (Req_dec_T n 0); [contradiction|reflexivity]. Qed.

(** A row whose norm is not zero has norm one once divided by it. *)
Lemma norm_div_by_norm v : norm v <> 0 -> norm (div_by (norm v) v) = 1.
Proof.
  intros Hn. unfold norm at 1. rewrite sum_sq_div_by by exact Hn.
  unfold norm. rewrite sqrt_sqrt by apply sum_sq_nonneg.
  assert (Hs : sum_sq v <> 0).
  { intros H0. apply Hn. unfold norm. rewrite H0. apply sqrt_0. }
  replace (sum_sq v / sum_sq v) with 1 by (field; exact Hs).
  apply sqrt_1.
Qed.

Lemma normalize_zero_norm v : norm v = 0 -> normalize v = v.
Proof.
  intros H0. unfold normalize. rewrite H0, guard_zero_0. apply div_by_1.
Qed.

Lemma normalize_idempotent v : normalize (normalize v) = normalize v.
Proof.
  destruct (Req_dec_T (norm v) 0) as [H0|Hn].
  - rewrite (normalize_zero_norm v H0). apply normalize_zero_norm, H0.
  - unfold normalize at 2 3. rewrite (guard_zero_nonzero _ Hn).
    unfold normalize. rewrite (norm_div_by_norm v Hn).
    assert (H1 : guard_zero 1 = 1) by (apply guard_zero_nonzero; lra).
    rewrite H1. apply div_by_1.
Qed.

Lemma sum_sq_zeros d : sum_sq (zeros d) = 0.
Proof. induction d as [|d IH]; simpl; [reflexivity|]. unfold zeros in IH. rewrite IH. lra. Qed.

Lemma normalize_zeros d : normalize (zeros d) = zeros d.
Proof.
  apply normalize_zero_norm. unfold norm. rewrite sum_sq_zeros. apply sqrt_0.
Qed.

(** What lines 129-131 compute on a 2-D array: every row normalised. *)
Lemma normalize_rows_Arr2 d rows :
  normalize_rows (Arr2 d rows) = Ok (Arr2 d (map normalize rows)).
Proof.
  unfold normalize_rows. simpl. do 2 f_equal.
  induction rows as [|r rows IH]; simpl; [reflexivity|].
  rewrite IH. reflexivity.
Qed.

End VecFacts.

(** ** Normalisation in single precision *)

Module F32Facts.
Import F32.











(** A sum that has become NaN stays NaN. *)
Lemma fold_sq_from_nan v :
  fold_left (fun acc x => add acc (mul x x)) v S754_nan = S754_nan.
Proof. induction v as [|x v IH]; simpl; [reflexivity|exact IH]. Qed.

Lemma fold_sq_nan v acc :
  existsb is_nan v = true ->
  fold_left (fun acc x => add acc (mul x x)) v acc = S754_nan.
Proof.
  revert acc. induction v as [|x v IH]; simpl; intros acc H; [discriminate|].
  apply orb_prop in H. destruct H as [Hx|Hv].
  - destruct x; try discriminate.
    replace (add acc (mul S754_nan S754_nan)) with S754_nan
      by (destruct acc; reflexivity).
    apply fold_sq_from_nan.
  - apply IH, Hv.
Qed.

End F32Facts.





(** ** The stable sort *)

Section StableSortFacts.
Context {A : Type} (leb : A -> A -> bool).

Lemma insert_perm x l : Permutation (insert leb x l) (x :: l).
Proof.
  induction l as [|y l IH]; simpl; [reflexivity|].
  destruct (leb x y); [reflexivity|].
  rewrite IH. apply perm_swap.
Qed.

Lemma sort_perm l : Permutation (sort leb l) l.
Proof.
  induction l as [|x l IH]; simpl; [reflexivity|].
  rewrite insert_perm. apply perm_skip, IH.
Qed.

Lemma length_sort l : length (sort leb l) = length l.
Proof. apply Permutation_length, sort_perm. Qed.

Lemma in_sort x l : In x (sort leb l) <-> In x l.
Proof.
  split; apply Permutation_in; [apply sort_perm | symmetry; apply sort_perm].
Qed.

Hypothesis leb_total : forall a b, leb a b = true \/ leb b a = true.
Hypothesis leb_trans : forall a b c, leb a b = true -> leb b c = true -> leb a c = true.

Lemma insert_sorted x l :
  StronglySorted (leb_rel leb) l -> StronglySorted (leb_rel leb) (insert leb x l).
Proof.
  induction 1 as [|y l Hs IH Hy]; simpl.
  - constructor; constructor.
  - destruct (leb x y) eqn:Hxy.
    + constructor; [constructor; assumption|].
      constructor; [exact Hxy|].
      eapply List.Forall_impl; [|exact Hy].
      intros z Hz. exact (leb_trans _ _ _ Hxy Hz).
    + constructor; [exact IH|].
      assert (Hyx : leb y x = true) by (destruct (leb_total x y); congruence).
      rewrite List.Forall_forall. intros z Hz.
      apply (Permutation_in _ (insert_perm x l)) in Hz.
      destruct Hz as [<-|Hz]; [exact Hyx|].
      rewrite List.Forall_forall in Hy. exact (Hy z Hz).
Qed.

Lemma sort_sorted l : StronglySorted (leb_rel leb) (sort leb l).
Proof.
  induction l as [|x l IH]; simpl; [constructor|].
  apply insert_sorted, IH.
Qed.

End StableSortFacts.

Lemma score_geb_total a b : score_geb a b = true \/ score_geb b a = true.
Proof.
  unfold score_geb.
  destruct (Rle_dec (similarity_score b) (similarity_score a)) as [H|H].
  - left. apply Rleb_true, H.
  - right. apply Rleb_true. lra.
Qed.

Lemma score_geb_trans a b c :
  score_geb a b = true -> score_geb b c = true -> score_geb a c = true.
Proof. unfold score_geb. rewrite !Rleb_true. lra. Qed.

Lemma sort_results_sorted rs : StronglySorted score_desc (sort_results rs).
Proof.
  pose proof (sort_sorted score_geb score_geb_total score_geb_trans rs) as H.
  unfold sort_results. induction H as [|x l Hs IH Hx]; constructor; [exact IH|].
  eapply List.Forall_impl; [|exact Hx].
  intros y Hy. unfold score_desc. apply Rleb_true. exact Hy.
Qed.

Lemma hit_leb_total a b : hit_leb a b = true \/ hit_leb b a = true.
Proof.
  unfold hit_leb.
  destruct (Rltb (snd b) (snd a)) eqn:E1; [left; reflexivity|].
  destruct (Rltb (snd a) (snd b)) eqn:E2; [right; reflexivity|].
  destruct (Z.leb_spec (fst a) (fst b)); [left; reflexivity|].
  right. apply Z.leb_le. lia.
Qed.

Lemma hit_leb_trans a b c :
  hit_leb a b = true -> hit_leb b c = true -> hit_leb a c = true.
Proof.
  unfold hit_leb.
  destruct (Rltb (snd b) (snd a)) eqn:E1, (Rltb (snd a) (snd b)) eqn:E2,
           (Rltb (snd c) (snd b)) eqn:E3, (Rltb (snd b) (snd c)) eqn:E4,
           (Rltb (snd c) (snd a)) eqn:E5, (Rltb (snd a) (snd c)) eqn:E6;
    try reflexivity; try discriminate;
    rewrite ?Rltb_true, ?Rltb_false in *; try lra;
    rewrite !Z.leb_le; lia.
Qed.

(** ** What a handler leaves untouched *)

Lemma same_globals_refl s : same_globals s s.
Proof. repeat split. Qed.

Lemma same_globals_trans s1 s2 s3 :
  same_globals s1 s2 -> same_globals s2 s3 -> same_globals s1 s3.
Proof. unfold same_globals. intuition congruence. Qed.

Lemma read_only_ret {A} (a : A) : read_only (ret a).
Proof. intros s. apply same_globals_refl. Qed.

Lemma read_only_lift {A} (r : result A) : read_only (lift r).
Proof. intros s. apply same_globals_refl. Qed.

Lemma read_only_bind {A B} (c : M A) (k : A -> M B) :
  read_only c -> (forall a, read_only (k a)) -> read_only (bind c k).
Proof.
  intros Hc Hk s. unfold bind. specialize (Hc s).
  destruct (c s) as [[a|e] s1]; simpl in *; [|exact Hc].
  eapply same_globals_trans; [exact Hc|apply Hk].
Qed.

Lemma read_only_get_products : read_only get_products.
Proof. intros s. apply same_globals_refl. Qed.
Lemma read_only_get_index : read_only get_index.
Proof. intros s. apply same_globals_refl. Qed.
Lemma read_only_get_model : read_only get_model.
Proof. intros s. apply same_globals_refl. Qed.
Lemma read_only_get_results : read_only get_results.
Proof. intros s. apply same_globals_refl. Qed.
Lemma read_only_results_new : read_only results_new.
Proof. intros s. repeat split. Qed.
Lemma read_only_results_append r : read_only (results_append r).
Proof. intros s. repeat split. Qed.
Lemma read_only_results_sort : read_only results_sort.
Proof. intros s. repeat split. Qed.

Lemma read_only_for_each {A} (xs : list A) (body : A -> M unit) :
  (forall x, read_only (body x)) -> read_only (for_each xs body).
Proof.
  intros Hb. induction xs as [|x xs IH]; simpl.
  - apply read_only_ret.
  - apply read_only_bind; [apply Hb|intros _; exact IH].
Qed.

Create HintDb frame.
#[local] Hint Resolve read_only_ret read_only_lift read_only_get_products
  read_only_get_index read_only_get_model read_only_get_results
  read_only_results_new read_only_results_append read_only_results_sort : frame.

Lemma read_only_search_step fav budget q hit : read_only (search_step fav budget q hit).
Proof.
  unfold search_step. apply read_only_bind; [auto with frame|intros ps].
  destruct ((fst hit <? 0)%Z || (Z.of_nat (length ps) <=? fst hit)%Z); [auto with frame|].
  destruct (nth_error ps (Z.to_nat (fst hit))); auto with frame.
Qed.

Ltac frame_step :=
  first [ apply read_only_search_step
        | apply read_only_for_each; intros ?
        | solve [auto with frame]
        | apply read_only_bind; [|intros ?] ].

(** C9.  Serving a search request, whatever it returns or raises, leaves
    the catalog items, the searchable texts, the similarity index and the
    encoder as they were: the handler writes the list of result rows of
    the request and nothing else. *)
Theorem search_products_frame (req : SearchRequest) (s : store) :
  let s' := snd (search_products req s) in
  products s' = products s
  /\ product_texts s' = product_texts s
  /\ index s' = index s
  /\ model s' = model s.
Proof.
  assert (Hframe : read_only (search_products req)).
  { unfold search_products.
    apply read_only_bind; [auto with frame|intros ix].
    apply read_only_bind; [auto with frame|intros m].
    destruct ix as [ix|], m as [m|]; try solve [auto with frame].
    repeat frame_step. }
  exact (Hframe s).
Qed.

(** ** The result rows of a request *)

Lemma with_results_same s : with_results s (results s) = s.
Proof. destruct s; reflexivity. Qed.

Lemma search_step_run fav budget q hit s :
  search_step fav budget q hit s
  = (Ok tt, with_results s (results s ++ row_of_hit fav budget q (products s) hit)).
Proof.
  unfold search_step, row_of_hit, bind, get_products.
  destruct ((fst hit <? 0)%Z || (Z.of_nat (length (products s)) <=? fst hit)%Z) eqn:G.
  - unfold ret. rewrite app_nil_r, with_results_same. reflexivity.
  - apply orb_false_iff in G. destruct G as [G1 G2].
    apply Z.ltb_ge in G1. apply Z.leb_gt in G2.
    destruct (nth_error (products s) (Z.to_nat (fst hit))) eqn:E; [reflexivity|].
    apply nth_error_None in E. lia.
Qed.

Lemma for_each_search_step_run fav budget q hits s :
  for_each hits (search_step fav budget q) s
  = (Ok tt, with_results s (results s ++ rows_of_hits fav budget q (products s) hits)).
Proof.
  revert s. induction hits as [|hit hits IH]; intros s; simpl.
  - unfold ret. rewrite app_nil_r, with_results_same. reflexivity.
  - unfold bind. rewrite search_step_run, IH. simpl.
    rewrite <- app_assoc. reflexivity.
Qed.

(** The handler, once the index and the encoder are there, step by step. *)
Lemma search_products_run req s ix m :
  index s = Some ix -> model s = Some m ->
  search_products req s =
    match index_search ix (query_vector m (query req)) (top_k req) with
    | Raise e => (Raise e, s)
    | Ok hits =>
        match fav_colors_of (user_preferences req) with
        | Raise e => (Raise e, with_results s [])
        | Ok fav =>
            (Ok (response_of req (ranked_rows s req fav hits)),
             with_results s (ranked_rows s req fav hits))
        end
    end.
Proof.
  intros Hix Hm. unfold search_products, bind at 1 2, get_index, get_model.
  rewrite Hix, Hm. unfold embed. simpl map.
  unfold bind at 1. unfold lift at 1. simpl Vec.np_array. cbv iota beta.
  unfold bind at 1. unfold lift at 1. rewrite VecFacts.normalize_rows_Arr2.
  simpl map. unfold bind at 1, lift at 1. simpl index_search_rows.
  fold (query_vector m (query req)).
  destruct (index_search ix (query_vector m (query req)) (top_k req)) as [hits|e];
    simpl rbind; [|reflexivity].
  simpl nth. unfold bind at 1, results_new at 1.
  unfold bind at 1, lift at 1.
  destruct (fav_colors_of (user_preferences req)) as [fav|e]; [|reflexivity].
  unfold bind at 1. rewrite for_each_search_step_run. simpl.
  reflexivity.
Qed.

Lemma search_products_not_ready req s :
  index s = None \/ model s = None -> search_products req s = (Ok NotReady503, s).
Proof.
  intros H. unfold search_products, bind, get_index, get_model.
  destruct H as [-> | ->]; [reflexivity|].
  destruct (index s); reflexivity.
Qed.

Lemma in_rows_of_hits fav budget q ps hits r :
  In r (rows_of_hits fav budget q ps hits) <->
  exists idx score p,
    In (idx, score) hits /\ (0 <= idx)%Z
    /\ nth_error ps (Z.to_nat idx) = Some p
    /\ r = score_product fav budget q p score.
Proof.
  unfold rows_of_hits. rewrite in_flat_map. split.
  - intros [[idx score] [Hin Hr]]. unfold row_of_hit in Hr. simpl in Hr.
    destruct ((idx <? 0)%Z || (Z.of_nat (length ps) <=? idx)%Z) eqn:G; [destruct Hr|].
    apply orb_false_iff in G. destruct G as [G1 _]. apply Z.ltb_ge in G1.
    destruct (nth_error ps (Z.to_nat idx)) as [p|] eqn:E; [|destruct Hr].
    destruct Hr as [<-|[]]. exists idx, score, p. auto.
  - intros (idx & score & p & Hin & H0 & Hp & ->).
    exists (idx, score). split; [exact Hin|].
    unfold row_of_hit. simpl.
    assert (Hlt : (Z.to_nat idx < length ps)%nat)
      by (apply nth_error_Some; congruence).
    assert (G : (idx <? 0)%Z || (Z.of_nat (length ps) <=? idx)%Z = false).
    { apply orb_false_iff. split; [apply Z.ltb_ge; lia|apply Z.leb_gt; lia]. }
    rewrite G, Hp. left. reflexivity.
Qed.

(** Pairs whose position is negative, as a search engine pads a result
    that has fewer than [k] entries, contribute no row: the guard of line
    213 skips them. *)
Lemma rows_of_hits_padding fav budget q ps hits pad :
  Forall (fun hit => (fst hit < 0)%Z) pad ->
  rows_of_hits fav budget q ps (hits ++ pad) = rows_of_hits fav budget q ps hits.
Proof.
  intros Hpad. unfold rows_of_hits. rewrite flat_map_app.
  assert (H : flat_map (row_of_hit fav budget q ps) pad = []).
  { induction Hpad as [|hit pad Hhit Hpad IH]; simpl; [reflexivity|].
    rewrite IH. unfold row_of_hit.
    destruct (Z.ltb_spec (fst hit) 0) as [_|Hge]; [reflexivity|lia]. }
  rewrite H. apply app_nil_r.
Qed.

(** The query the handler hands over is already normalised, so the
    normalisation inside the search leaves it as it is. *)
Lemma query_vector_normalized m q :
  Vec.normalize (query_vector m q) = query_vector m q.
Proof. unfold query_vector. apply VecFacts.normalize_idempotent. Qed.

(** ** The similarity search *)

Lemma in_firstn {A} n (l : list A) x : In x (firstn n l) -> In x l.
Proof.
  revert n. induction l as [|y l IH]; intros [|n]; simpl; try tauto.
  intros [H|H]; [left; exact H|right; exact (IH n H)].
Qed.

Lemma StronglySorted_firstn {A} (R : A -> A -> Prop) n l :
  StronglySorted R l -> StronglySorted R (firstn n l).
Proof.
  intros H. revert n. induction H as [|x l Hs IH Hx]; intros [|n]; simpl;
    try constructor.
  - apply IH.
  - rewrite List.Forall_forall in *. intros y Hy. apply Hx.
    eapply in_firstn. exact Hy.
Qed.

Lemma NoDup_map_of_nat l : List.NoDup l -> List.NoDup (map Z.of_nat l).
Proof.
  induction 1 as [|x l Hx Hl IH]; simpl; constructor; [|exact IH].
  rewrite in_map_iff. intros (y & Hy & Hin). apply Nat2Z.inj in Hy. subst y.
  contradiction.
Qed.

Lemma positions_NoDup n : List.NoDup (positions n).
Proof. apply NoDup_map_of_nat, seq_NoDup. Qed.

Lemma length_positions n : length (positions n) = n.
Proof. unfold positions. rewrite length_map. apply length_seq. Qed.

Lemma map_fst_combine {A B} (l : list A) (l' : list B) :
  length l = length l' -> map fst (combine l l') = l.
Proof.
  revert l'. induction l as [|a l IH]; intros [|b l'] H; simpl in *;
    try reflexivity; try discriminate.
  f_equal. apply IH. lia.
Qed.

Lemma NoDup_firstn {A} n (l : list A) : List.NoDup l -> List.NoDup (firstn n l).
Proof.
  intros H. revert n. induction H as [|x l Hx Hl IH]; intros [|n]; simpl;
    try constructor.
  - intros Hin. apply Hx. eapply in_firstn. exact Hin.
  - apply IH.
Qed.

(** On pairs with distinct positions, the order [hit_leb] sorts by is the
    strict order [hit_order]. *)
Lemma sorted_hits_strict (l : list (Z * R)) :
  StronglySorted (leb_rel hit_leb) l -> List.NoDup (map fst l) ->
  StronglySorted hit_order l.
Proof.
  induction 1 as [|x l Hs IH Hx]; intros Hnd; [constructor|].
  simpl in Hnd. inversion Hnd as [|? ? Hnotin Hnd']; subst.
  constructor; [apply IH, Hnd'|].
  rewrite List.Forall_forall in *. intros y Hy.
  specialize (Hx y Hy). unfold leb_rel, hit_leb in Hx. unfold hit_order.
  destruct (Rltb (snd y) (snd x)) eqn:E1; [left; apply Rltb_true, E1|].
  destruct (Rltb (snd x) (snd y)) eqn:E2; [discriminate|].
  apply Rltb_false in E1, E2. apply Z.leb_le in Hx.
  right. split; [lra|].
  assert (fst x <> fst y).
  { intros Heq. apply Hnotin. rewrite Heq. apply in_map, Hy. }
  lia.
Qed.

Lemma rmap_dot_ok q vs :
  Forall (fun v => length v = length q) vs ->
  rmap (Vec.dot q) vs = Ok (map (Vec.dot_aux q) vs).
Proof.
  induction 1 as [|v vs Hv Hvs IH]; simpl; [reflexivity|].
  unfold Vec.dot at 1. rewrite Hv, Nat.eqb_refl. simpl. rewrite IH. reflexivity.
Qed.

Lemma length_all_scores ix q : length (all_scores ix q) = length (ix_vectors ix).
Proof. unfold all_scores. apply length_map. Qed.

Lemma map_fst_all_hits ix q : map fst (all_hits ix q) = positions (length (ix_vectors ix)).
Proof.
  unfold all_hits. apply map_fst_combine.
  rewrite length_positions, length_all_scores. reflexivity.
Qed.

Lemma index_search_ok ix q k :
  (0 < k)%Z ->
  Forall (fun v => length v = length q) (ix_vectors ix) ->
  index_search ix q k = Ok (firstn (Z.to_nat k) (sort hit_leb (all_hits ix q))).
Proof.
  intros Hk Hdim. unfold index_search.
  destruct (Z.leb_spec k 0) as [Hle|_]; [lia|].
  rewrite rmap_dot_ok.
  - simpl. unfold all_hits, all_scores. rewrite !length_map. reflexivity.
  - eapply List.Forall_impl; [|exact Hdim].
    intros v Hv. simpl in Hv. rewrite VecFacts.length_normalize. exact Hv.
Qed.

Lemma in_combine_positions {B} (f : Vec.vector -> B) vs a p sc :
  In (p, sc) (combine (map Z.of_nat (seq a (length vs))) (map f vs)) ->
  exists n v, p = Z.of_nat (a + n) /\ nth_error vs n = Some v /\ sc = f v.
Proof.
  revert a. induction vs as [|w vs IH]; intros a Hin; simpl in Hin; [destruct Hin|].
  destruct Hin as [Heq|Hin].
  - injection Heq as <- <-. exists 0%nat, w. rewrite Nat.add_0_r. auto.
  - destruct (IH (S a) Hin) as (n & v & -> & Hn & ->).
    exists (S n), v. repeat split; [f_equal; lia|exact Hn].
Qed.

(** A pair of [all_hits] is a catalog position with the inner product of
    the normalised query and the vector stored there. *)
Lemma in_all_hits ix q p sc :
  In (p, sc) (all_hits ix q) ->
  (0 <= p)%Z /\
  exists v, nth_error (ix_vectors ix) (Z.to_nat p) = Some v
            /\ sc = Vec.dot_aux (Vec.normalize q) v.
Proof.
  unfold all_hits, all_scores, positions. intros Hin.
  apply in_combine_positions in Hin. destruct Hin as (n & v & -> & Hn & ->).
  split; [lia|]. exists v. simpl. rewrite Nat2Z.id. auto.
Qed.

Lemma sorted_all_hits ix q : StronglySorted hit_order (sort hit_leb (all_hits ix q)).
Proof.
  apply sorted_hits_strict.
  - apply sort_sorted; [exact hit_leb_total|exact hit_leb_trans].
  - eapply Permutation_NoDup.
    + symmetry. apply Permutation_map. apply sort_perm.
    + rewrite map_fst_all_hits. apply positions_NoDup.
Qed.

(** C5.  For a query of the index's dimension and a [k] from 1 to the
    number of stored vectors, the search returns [k] pairs, so at most
    [k]; each pair is a catalog position with the inner product of the
    normalised query and the vector stored there; the pairs are in
    descending order of score, and pairs of equal score in ascending order
    of position. *)
Theorem index_search_topk_sorted (ix : IndexFlatIP) (q : Vec.vector) (k : Z) :
  (0 < k)%Z ->
  (k <= Z.of_nat (length (ix_vectors ix)))%Z ->
  Forall (fun v => length v = length q) (ix_vectors ix) ->
  exists hits,
    index_search ix q k = Ok hits
    /\ (length hits <= Z.to_nat k)%nat
    /\ length hits = Z.to_nat k
    /\ StronglySorted hit_order hits
    /\ forall p sc, In (p, sc) hits ->
         (0 <= p < Z.of_nat (length (ix_vectors ix)))%Z
         /\ exists v, nth_error (ix_vectors ix) (Z.to_nat p) = Some v
                      /\ sc = Vec.dot_aux (Vec.normalize q) v.
Proof.
  intros Hk HkN Hdim. eexists. split; [apply index_search_ok; assumption|].
  assert (Hlen : length (firstn (Z.to_nat k) (sort hit_leb (all_hits ix q)))
                 = Z.to_nat k).
  { rewrite length_firstn, length_sort. unfold all_hits.
    rewrite length_combine, length_positions, length_all_scores. lia. }
  split; [lia|]. split; [exact Hlen|].
  split; [apply StronglySorted_firstn, sorted_all_hits|].
  intros p sc Hin. apply in_firstn in Hin. apply in_sort in Hin.
  destruct (in_all_hits ix q p sc Hin) as (Hp & v & Hv & Hsc).
  split; [|exists v; auto].
  split; [exact Hp|].
  assert (Z.to_nat p < length (ix_vectors ix))%nat by (apply nth_error_Some; congruence).
  lia.
Qed.

(** ** Startup *)

Lemma np_array_fixed_dim d (rows : list Vec.vector) :
  rows <> [] -> Forall (fun r => length r = d) rows ->
  Vec.np_array rows = Ok (Vec.Arr2 d rows).
Proof.
  intros Hne Hd. destruct rows as [|r rs]; [contradiction|].
  inversion Hd as [|? ? Hr Hrs]; subst. simpl.
  assert (H : forallb (fun r' => (length r' =? length r)%nat) rs = true).
  { apply forallb_forall. intros r' Hin. rewrite List.Forall_forall in Hrs.
    apply Nat.eqb_eq. apply Hrs, Hin. }
  rewrite H. reflexivity.
Qed.

(** Startup on a catalog that is not empty, with an encoder of dimension
    [d]: the globals are set and the index holds the normalised vector of
    every item. *)
Lemma startup_run catalog encoder d s :
  catalog <> [] ->
  (forall t, length (embed_one encoder t) = d) ->
  startup_load_products catalog encoder s
  = (Ok tt,
     {| products := catalog;
        product_texts := map build_text catalog;
        index := Some {| ix_dimension := d;
                         ix_vectors := map Vec.normalize
                                         (embed encoder (map build_text catalog)) |};
        model := Some encoder;
        results := results s |}).
Proof.
  intros Hne Hd. unfold startup_load_products.
  unfold bind at 1, set_products at 1. unfold bind at 1, get_products at 1.
  cbn [products product_texts index model results].
  unfold bind at 1, set_product_texts at 1.
  unfold bind at 1, set_model at 1.
  unfold bind at 1, get_product_texts at 1.
  cbn [products product_texts index model results].
  unfold bind at 1, lift at 1.
  rewrite (np_array_fixed_dim d).
  - unfold bind at 1, lift at 1. rewrite VecFacts.normalize_rows_Arr2.
    unfold bind at 1, lift at 1. simpl.
    destruct catalog as [|p ps]; [contradiction|reflexivity].
  - unfold embed. destruct catalog; [contradiction|discriminate].
  - unfold embed. apply Forall_map, Forall_map. apply List.Forall_forall. intros; apply Hd.
Qed.

Lemma startup_ready catalog encoder d s :
  catalog <> [] ->
  (forall t, length (embed_one encoder t) = d) ->
  ready (snd (startup_load_products catalog encoder s))
  /\ products (snd (startup_load_products catalog encoder s)) = catalog.
Proof.
  intros Hne Hd. rewrite (startup_run catalog encoder d s Hne Hd). simpl.
  split; [|reflexivity].
  eexists _, _. split; [reflexivity|]. split; [reflexivity|]. simpl.
  split; [unfold embed; rewrite !length_map; reflexivity|].
  split; [|exact Hd].
  unfold embed. apply List.Forall_forall. intros v Hv.
  apply in_map_iff in Hv. destruct Hv as (w & <- & Hw).
  apply in_map_iff in Hw. destruct Hw as (t & <- & _).
  rewrite VecFacts.length_normalize. apply Hd.
Qed.

(** C8, as the code has it.  Startup on a catalog of zero items fails
    while the index is being built, with the axis error of the array
    library and not with [EmptyCatalog]: the code makes no emptiness check,
    the array of no embeddings has a single axis, and the row norms of
    line 129 raise before the index is created on line 135.  The index
    stays unset and every later request is answered "not ready". *)
Theorem startup_empty_catalog_fails (encoder : TextEmbedding) :
  exists s',
    startup_load_products [] encoder initial_store = (Raise AxisError, s')
    /\ index s' = None
    /\ forall req, fst (search_products req s') = Ok NotReady503.
Proof.
  eexists. split; [reflexivity|]. split; [reflexivity|].
  intros req. rewrite search_products_not_ready; [reflexivity|].
  left. reflexivity.
Qed.

(** ** The ranking pipeline *)

Lemma ready_search_ok s req ix m :
  index s = Some ix -> model s = Some m ->
  Forall (fun v => length v = ix_dimension ix) (ix_vectors ix) ->
  (forall t, length (embed_one m t) = ix_dimension ix) ->
  valid_request req = true ->
  index_search ix (query_vector m (query req)) (top_k req)
  = Ok (firstn (Z.to_nat (top_k req))
          (sort hit_leb (all_hits ix (query_vector m (query req))))).
Proof.
  intros _ _ Hdim Hm Hv. apply index_search_ok.
  - unfold valid_request in Hv. apply andb_prop in Hv. destruct Hv as [Hv _].
    apply andb_prop in Hv. destruct Hv as [_ Hv]. apply Z.leb_le in Hv. lia.
  - eapply List.Forall_impl; [|exact Hdim]. intros v Hv'. simpl in Hv'.
    unfold query_vector. rewrite VecFacts.length_normalize, Hm. exact Hv'.
Qed.

(** A request that passed validation, on a ready store and with a
    well-formed colour preference, is answered with a result list. *)
Lemma search_products_returns s req fav :
  ready s -> valid_request req = true ->
  fav_colors_of (user_preferences req) = Ok fav ->
  exists ix m,
    index s = Some ix /\ model s = Some m /\
    let hits := firstn (Z.to_nat (top_k req))
                  (sort hit_leb (all_hits ix (query_vector m (query req)))) in
    search_products req s
    = (Ok (response_of req (ranked_rows s req fav hits)),
       with_results s (ranked_rows s req fav hits)).
Proof.
  intros (ix & m & Hix & Hm & _ & Hdim & Hd) Hv Hfav.
  exists ix, m. split; [exact Hix|]. split; [exact Hm|]. simpl.
  rewrite (search_products_run req s ix m Hix Hm).
  rewrite (ready_search_ok s req ix m Hix Hm Hdim Hd Hv), Hfav. reflexivity.
Qed.

Lemma search_products_raises s req e :
  ready s -> valid_request req = true ->
  fav_colors_of (user_preferences req) = Raise e ->
  search_products req s = (Raise e, with_results s []).
Proof.
  intros (ix & m & Hix & Hm & _ & Hdim & Hd) Hv Hfav.
  rewrite (search_products_run req s ix m Hix Hm).
  rewrite (ready_search_ok s req ix m Hix Hm Hdim Hd Hv), Hfav. reflexivity.
Qed.

(** Whatever list the handler returns is sorted and made of rows of
    retrieved pairs only. *)
Lemma search_products_sorted_from_hits req s resp s' :
  search_products req s = (Ok (SearchOk resp), s') ->
  StronglySorted score_desc (resp_products resp)
  /\ exists ix m hits fav,
       index s = Some ix /\ model s = Some m
       /\ index_search ix (query_vector m (query req)) (top_k req) = Ok hits
       /\ fav_colors_of (user_preferences req) = Ok fav
       /\ forall r, In r (resp_products resp) ->
            exists idx score p,
              In (idx, score) hits /\ (0 <= idx)%Z
              /\ nth_error (products s) (Z.to_nat idx) = Some p
              /\ r = score_product fav (budget_of (user_preferences req))
                       (query req) p score.
Proof.
  intros Hrun.
  destruct (index s) as [ix|] eqn:Hix;
    [|rewrite search_products_not_ready in Hrun by (left; exact Hix); discriminate].
  destruct (model s) as [m|] eqn:Hm;
    [|rewrite search_products_not_ready in Hrun by (right; exact Hm); discriminate].
  rewrite (search_products_run req s ix m Hix Hm) in Hrun.
  destruct (index_search ix (query_vector m (query req)) (top_k req)) as [hits|e] eqn:Hs;
    [|discriminate].
  destruct (fav_colors_of (user_preferences req)) as [fav|e] eqn:Hfav; [|discriminate].
  injection Hrun as <- <-. simpl.
  split; [apply sort_results_sorted|].
  exists ix, m, hits, fav. do 4 (split; [first [reflexivity|assumption]|]).
  intros r Hr. unfold ranked_rows, sort_results in Hr. apply in_sort in Hr.
  apply in_rows_of_hits in Hr. exact Hr.
Qed.

(** C1.  The list a request is answered with is in descending order of
    the boosted, rounded score, and each of its rows is the row of a pair
    the similarity search returned for this request, whatever the
    preferences: the boost changes the score of a retrieved item and
    never which items are retrieved.  A validated request on a ready
    store with a well-formed colour preference is answered with such a
    list. *)
Theorem search_results_sorted_within_topk (req : SearchRequest) (s : store) :
  (forall resp s',
     search_products req s = (Ok (SearchOk resp), s') ->
     StronglySorted score_desc (resp_products resp)
     /\ exists ix m hits fav,
          index s = Some ix /\ model s = Some m
          /\ index_search ix (query_vector m (query req)) (top_k req) = Ok hits
          /\ fav_colors_of (user_preferences req) = Ok fav
          /\ (length hits <= Z.to_nat (top_k req))%nat
          /\ forall r, In r (resp_products resp) ->
               exists idx score p,
                 In (idx, score) hits /\ (0 <= idx)%Z
                 /\ nth_error (products s) (Z.to_nat idx) = Some p
                 /\ r = score_product fav (budget_of (user_preferences req))
                          (query req) p score)
  /\ (ready s -> valid_request req = true ->
      forall fav, fav_colors_of (user_preferences req) = Ok fav ->
      exists resp s', search_products req s = (Ok (SearchOk resp), s')).
Proof.
  split.
  - intros resp s' Hrun.
    destruct (search_products_sorted_from_hits req s resp s' Hrun)
      as (Hsorted & ix & m & hits & fav & Hix & Hm & Hs & Hfav & Hrows).
    split; [exact Hsorted|].
    exists ix, m, hits, fav. do 4 (split; [assumption|]).
    split; [|exact Hrows].
    unfold index_search in Hs. destruct (top_k req <=? 0)%Z; [discriminate|].
    destruct (rmap _ _); simpl in Hs; [|discriminate].
    injection Hs as <-. apply firstn_le_length.
  - intros Hready Hv fav Hfav.
    destruct (search_products_returns s req fav Hready Hv Hfav)
      as (ix & m & _ & _ & Hrun).
    eexists _, _. exact Hrun.
Qed.

(** The rows of all catalog positions, each with its score, are the rows
    of the catalog items in catalog order. *)
Lemma rows_of_hits_positions fav budget q pre ps scores :
  length scores = length ps ->
  rows_of_hits fav budget q (pre ++ ps)
    (combine (map Z.of_nat (seq (length pre) (length ps))) scores)
  = map (fun x => score_product fav budget q (fst x) (snd x)) (combine ps scores).
Proof.
  revert pre scores. induction ps as [|p ps IH]; intros pre [|sc scores] Hlen;
    simpl in Hlen; try discriminate; try reflexivity.
  simpl. unfold row_of_hit at 1. simpl fst. simpl snd.
  assert (G : (Z.of_nat (length pre) <? 0)%Z
              || (Z.of_nat (length (pre ++ p :: ps)) <=? Z.of_nat (length pre))%Z = false).
  { apply orb_false_iff. split; [apply Z.ltb_ge; lia|].
    apply Z.leb_gt. rewrite length_app. simpl. lia. }
  rewrite G, Nat2Z.id, nth_error_app2, Nat.sub_diag by lia. simpl.
  f_equal.
  specialize (IH (pre ++ [p]) scores).
  rewrite <- app_assoc, length_app in IH. simpl in IH.
  rewrite Nat.add_1_r in IH. apply IH. lia.
Qed.

Lemma rows_of_all_hits fav budget q ps ix v :
  length (ix_vectors ix) = length ps ->
  rows_of_hits fav budget q ps (all_hits ix v)
  = map (fun x => score_product fav budget q (fst x) (snd x))
        (combine ps (all_scores ix v)).
Proof.
  intros Hlen. unfold all_hits, positions. rewrite Hlen.
  apply (rows_of_hits_positions fav budget q [] ps).
  rewrite length_all_scores. exact Hlen.
Qed.

(** C6.  A validated request whose [top_k] is above the catalog size, on
    a ready store and with a well-formed colour preference, raises
    nothing and is answered with exactly one row per catalog item: the
    rows are a rearrangement of the rows of the catalog items with their
    scores, in descending order of score. *)
Theorem search_top_k_above_catalog_size (req : SearchRequest) (s : store)
    (fav : list string) :
  ready s ->
  valid_request req = true ->
  fav_colors_of (user_preferences req) = Ok fav ->
  (Z.of_nat (length (products s)) < top_k req)%Z ->
  exists resp s' scores,
    search_products req s = (Ok (SearchOk resp), s')
    /\ length (resp_products resp) = length (products s)
    /\ total_results resp = length (products s)
    /\ StronglySorted score_desc (resp_products resp)
    /\ length scores = length (products s)
    /\ Permutation (resp_products resp)
         (map (fun x => score_product fav (budget_of (user_preferences req))
                          (query req) (fst x) (snd x))
              (combine (products s) scores)).
Proof.
  intros Hready Hv Hfav Hk.
  destruct (search_products_returns s req fav Hready Hv Hfav)
    as (ix & m & Hix & Hm & Hrun).
  destruct Hready as (ix' & m' & Hix' & Hm' & Hlen & _).
  assert (ix' = ix) by congruence. subst ix'. clear Hix' Hm' m'.
  simpl in Hrun.
  assert (Hall : firstn (Z.to_nat (top_k req))
                   (sort hit_leb (all_hits ix (query_vector m (query req))))
                 = sort hit_leb (all_hits ix (query_vector m (query req)))).
  { apply firstn_all2. rewrite length_sort. unfold all_hits.
    rewrite length_combine, length_positions, length_all_scores. lia. }
  rewrite Hall in Hrun.
  set (rows := ranked_rows s req fav
                 (sort hit_leb (all_hits ix (query_vector m (query req))))) in *.
  assert (Hperm : Permutation rows
            (map (fun x => score_product fav (budget_of (user_preferences req))
                             (query req) (fst x) (snd x))
                 (combine (products s) (all_scores ix (query_vector m (query req)))))).
  { unfold rows, ranked_rows, sort_results.
    rewrite sort_perm. unfold rows_of_hits at 1.
    rewrite (Permutation_flat_map _ (sort_perm hit_leb _)).
    fold (rows_of_hits fav (budget_of (user_preferences req)) (query req) (products s)
            (all_hits ix (query_vector m (query req)))).
    rewrite (rows_of_all_hits _ _ _ _ _ _ Hlen). reflexivity. }
  assert (Hlenrows : length rows = length (products s)).
  { rewrite (Permutation_length Hperm), length_map, length_combine, length_all_scores.
    lia. }
  exists {| resp_products := rows; resp_query := query req; total_results := length rows |},
         (with_results s rows), (all_scores ix (query_vector m (query req))).
  split; [exact Hrun|]. simpl.
  split; [exact Hlenrows|]. split; [exact Hlenrows|].
  split; [apply sort_results_sorted|].
  split; [rewrite length_all_scores; exact Hlen|exact Hperm].
Qed.

(** ** Personalization boosts *)

Lemma rmap_lower_strings cs : rmap Py.lower (map JStr cs) = Ok (map PyStr.lower cs).
Proof. induction cs as [|c cs IH]; simpl; [reflexivity|]. rewrite IH. reflexivity. Qed.

Lemma existsb_map {A B} (f : B -> bool) (g : A -> B) l :
  existsb f (map g l) = existsb (fun x => f (g x)) l.
Proof. induction l as [|x l IH]; simpl; [reflexivity|]. rewrite IH. reflexivity. Qed.

Lemma existsb_pointwise {A} (f g : A -> bool) l :
  (forall x, f x = g x) -> existsb f l = existsb g l.
Proof.
  intros H. induction l as [|x l IH]; simpl; [reflexivity|]. rewrite H, IH. reflexivity.
Qed.

Lemma any_color_match_spec cs p :
  any_color_match (map PyStr.lower cs) (map PyStr.lower (p_colors p))
  = spec_color_rule cs p.
Proof.
  unfold any_color_match, spec_color_rule. rewrite existsb_map.
  apply existsb_pointwise. intros c. apply existsb_map.
Qed.

Lemma color_boost_spec cs p score :
  color_boost (map PyStr.lower cs) p score = (score + spec_color_adjustment cs p)%R.
Proof.
  unfold color_boost, spec_color_adjustment.
  destruct cs as [|c cs]; [simpl; lra|].
  cbn [map]. change (PyStr.lower c :: map PyStr.lower cs) with (map PyStr.lower (c :: cs)).
  cbv zeta. rewrite any_color_match_spec.
  destruct (spec_color_rule (c :: cs) p); lra.
Qed.

Lemma budget_boost_tier t p score :
  budget_boost (JStr (tier_name t)) p score
  = (score + spec_budget_adjustment (Some t) p)%R.
Proof.
  unfold budget_boost, spec_budget_adjustment.
  destruct t; simpl.
  - destruct (Rltb (p_price p) 80); simpl; lra.
  - destruct (Rleb 50 (p_price p) && Rleb (p_price p) 200); simpl; lra.
  - destruct (Rltb 150 (p_price p)); simpl; lra.
Qed.

(** A budget value that is none of the three tier strings fires no rule. *)
Lemma budget_boost_other budget p score :
  (forall t, budget <> JStr (tier_name t)) ->
  budget_boost budget p score = score.
Proof.
  intros Hb. unfold budget_boost.
  assert (H : forall t, Py.eq_str budget (tier_name t) = false).
  { intros t. destruct budget as [| | |s| |]; simpl; try reflexivity.
    destruct (String.eqb_spec s (tier_name t)) as [->|]; [|reflexivity].
    exfalso. exact (Hb t eq_refl). }
  rewrite (H Low : Py.eq_str budget "low" = false).
  rewrite (H Medium : Py.eq_str budget "medium" = false).
  rewrite (H High : Py.eq_str budget "high" = false).
  reflexivity.
Qed.

Lemma spec_boost_in_values cs b p :
  In (spec_color_adjustment cs p + spec_budget_adjustment b p)%R boost_values.
Proof.
  unfold spec_color_adjustment, spec_budget_adjustment, boost_values.
  destruct (spec_color_rule cs p), b as [[| |]|]; simpl;
    repeat match goal with
           | |- context [if ?c then _ else _] => destruct c
           end;
    repeat (first [left; lra | right]).
Qed.

(** Whatever the colour list and the budget value are, the two rules add
    one of the seven values to the score. *)
Lemma boosted_score_in_values fav budget p score :
  In (boosted_score fav budget p score - score)%R boost_values.
Proof.
  unfold boosted_score, budget_boost, color_boost, boost_values.
  destruct fav as [|fc fav];
    repeat match goal with
           | |- context [if ?c then _ else _] => destruct c
           end;
    simpl; repeat (first [left; lra | right]).
Qed.

Example boost_red_low_ex :
  boosted_score ["red"] (JStr "low") red_dress 0.5 = 0.6%R.
Proof.
  unfold boosted_score, budget_boost, color_boost. simpl.
  rewrite (proj2 (Rltb_true 59 80)) by lra. simpl. lra.
Qed.

Example boost_medium_only_ex :
  boosted_score ["red"] (JStr "medium") wool_coat 0.5 = 0.53%R.
Proof.
  unfold boosted_score, budget_boost, color_boost. simpl.
  rewrite (proj2 (Rleb_true 50 180)), (proj2 (Rleb_true 180 200)) by lra. simpl. lra.
Qed.

Example boost_high_below_ex :
  boosted_score [] (JStr "high") leather_boots 0.5 = 0.5%R.
Proof.
  unfold boosted_score, budget_boost, color_boost. simpl.
  rewrite (proj2 (Rltb_false 150 120)) by lra. reflexivity.
Qed.

(** C3.  For a preference object whose [favorite_colors], when present,
    is a list of strings and whose [budget], when present, is one of the
    three tiers (other keys are free), the colour list is read without
    error and the two rules add to the score of an item the colour
    adjustment, 0.05 when the colour rule holds and 0 otherwise, and the
    adjustment of the one budget rule the declared tier selects; their sum
    is one of 0, 0.02, 0.03, 0.05, 0.07, 0.08 and 0.10. *)
Theorem boost_in_value_set (prefs : gmap string json)
    (favorite_colors : option (list string)) (budget : option tier)
    (p : product) (score : R) :
  prefs !! "favorite_colors" = (fun cs => JArr (map JStr cs)) <$> favorite_colors ->
  prefs !! "budget" = (fun t => JStr (tier_name t)) <$> budget ->
  exists fav,
    fav_colors_of prefs = Ok fav
    /\ boosted_score fav (budget_of prefs) p score
       = (score + (spec_color_adjustment (default [] favorite_colors) p
                   + spec_budget_adjustment budget p))%R
    /\ In (boosted_score fav (budget_of prefs) p score - score)%R boost_values.
Proof.
  intros Hc Hb.
  exists (map PyStr.lower (default [] favorite_colors)).
  assert (Hfav : fav_colors_of prefs = Ok (map PyStr.lower (default [] favorite_colors))).
  { unfold fav_colors_of, Py.get. rewrite Hc.
    destruct favorite_colors as [cs|]; simpl; [apply rmap_lower_strings|reflexivity]. }
  assert (Hboost : boosted_score (map PyStr.lower (default [] favorite_colors))
                     (budget_of prefs) p score
                   = (score + (spec_color_adjustment (default [] favorite_colors) p
                               + spec_budget_adjustment budget p))%R).
  { unfold boosted_score, budget_of, Py.get. rewrite color_boost_spec.
    destruct budget as [t|]; simpl in Hb; rewrite Hb;
      change (default (JStr "") (Some (JStr (tier_name t)))) with (JStr (tier_name t)) ||
      change (default (JStr "") None) with (JStr "").
    - rewrite budget_boost_tier. lra.
    - rewrite budget_boost_other; [unfold spec_budget_adjustment; lra|].
      intros []; discriminate. }
  split; [exact Hfav|]. split; [exact Hboost|].
  rewrite Hboost.
  replace (score + (spec_color_adjustment (default [] favorite_colors) p
                    + spec_budget_adjustment budget p) - score)%R
    with (spec_color_adjustment (default [] favorite_colors) p
          + spec_budget_adjustment budget p)%R by lra.
  apply spec_boost_in_values.
Qed.


(** ** Malformed preferences *)

Lemma rmap_lower_ok xs :
  (exists l, rmap Py.lower xs = Ok l) <-> forallb is_string xs = true.
Proof.
  induction xs as [|x xs IH]; simpl.
  - split; [reflexivity|]. intros _. eexists. reflexivity.
  - destruct x as [| | |s| |]; simpl;
      try (split; [intros [l Hl]; discriminate|discriminate]).
    rewrite <- IH. split.
    + intros [l Hl]. destruct (rmap Py.lower xs) as [l'|e]; [|discriminate].
      eexists. reflexivity.
    + intros [l' Hl']. rewrite Hl'. eexists. reflexivity.
Qed.

Lemma forallb_is_string_map {A} (f : A -> string) l :
  forallb is_string (map (fun x => JStr (f x)) l) = true.
Proof. induction l as [|x l IH]; simpl; [reflexivity|exact IH]. Qed.

Lemma fav_colors_of_ok prefs :
  (exists fav, fav_colors_of prefs = Ok fav) <-> colors_field_readable prefs = true.
Proof.
  unfold fav_colors_of, colors_field_readable, Py.get.
  destruct (prefs !! "favorite_colors") as [v|]; simpl.
  - destruct v as [| | |s|xs|kvs]; simpl;
      try (split; [intros [l Hl]; discriminate|discriminate]).
    + split; [reflexivity|]. intros _. apply rmap_lower_ok.
      apply (forallb_is_string_map (fun c => String c EmptyString)).
    + apply rmap_lower_ok.
    + split; [reflexivity|]. intros _. apply rmap_lower_ok.
      apply (forallb_is_string_map fst).
  - split; [reflexivity|]. intros _. eexists. reflexivity.
Qed.

(** C2, as the code has it.  Reading the preferences raises nothing
    exactly when [favorite_colors] is absent or is a list of strings (or a
    string or an object, read as its characters or keys); [budget] may be
    absent or hold any value.  An absent [favorite_colors] gives the empty
    colour list, under which the colour rule adds 0, and a [budget] that
    is no tier string adds 0.  On a ready store a validated request with
    readable colours is answered, and one with unreadable colours
    raises. *)
Theorem boost_raises_only_on_unreadable_colors (prefs : gmap string json) :
  ((exists fav, fav_colors_of prefs = Ok fav) <-> colors_field_readable prefs = true)
  /\ (prefs !! "favorite_colors" = None -> fav_colors_of prefs = Ok [])
  /\ (forall p score, color_boost [] p score = score)
  /\ (forall fav p score,
        (forall t, prefs !! "budget" <> Some (JStr (tier_name t))) ->
        boosted_score fav (budget_of prefs) p score = color_boost fav p score)
  /\ (forall s req,
        user_preferences req = prefs -> ready s -> valid_request req = true ->
        if colors_field_readable prefs
        then exists resp s', search_products req s = (Ok (SearchOk resp), s')
        else exists e s', search_products req s = (Raise e, s')).
Proof.
  split; [apply fav_colors_of_ok|].
  split.
  { intros Habs. unfold fav_colors_of, Py.get. rewrite Habs. reflexivity. }
  split; [reflexivity|].
  split.
  { intros fav p score Hb. unfold boosted_score. apply budget_boost_other.
    intros t. unfold budget_of, Py.get.
    destruct (prefs !! "budget") as [v|] eqn:E; simpl.
    - intros ->. exact (Hb t eq_refl).
    - destruct t; discriminate. }
  intros s req <- Hready Hv.
  destruct (colors_field_readable (user_preferences req)) eqn:Hshape.
  - apply fav_colors_of_ok in Hshape. destruct Hshape as [fav Hfav].
    destruct (search_products_returns s req fav Hready Hv Hfav) as (ix & m & _ & _ & Hrun).
    eexists _, _. exact Hrun.
  - destruct Hready as (ix & m & Hix & Hm & _ & Hdim & Hd).
    rewrite (search_products_run req s ix m Hix Hm).
    rewrite (ready_search_ok s req ix m Hix Hm Hdim Hd Hv).
    destruct (fav_colors_of (user_preferences req)) as [fav|e] eqn:Hfav.
    + assert (H : colors_field_readable (user_preferences req) = true)
        by (apply fav_colors_of_ok; eexists; exact Hfav).
      congruence.
    + eexists _, _. reflexivity.
Qed.

(** ** Match reasons *)

Module PyStrFacts.
Import PyStr.

Lemma mem_In x xs : mem x xs = true <-> In x xs.
Proof.
  unfold mem. rewrite existsb_exists. split.
  - intros (y & Hy & Heq). apply String.eqb_eq in Heq. subst. exact Hy.
  - intros H. exists x. split; [exact H|apply String.eqb_refl].
Qed.

Lemma in_list_of_set x xs : In x (list_of_set xs) <-> In x xs.
Proof.
  induction xs as [|y xs IH]; simpl; [tauto|].
  rewrite filter_In, IH. split.
  - intros [H|[H _]]; auto.
  - intros [H|H]; [left; exact H|].
    destruct (String.eqb_spec y x) as [->|Hne]; [left; reflexivity|].
    right. split; [exact H|reflexivity].
Qed.

Lemma NoDup_list_of_set xs : List.NoDup (list_of_set xs).
Proof.
  induction xs as [|y xs IH]; simpl; constructor.
  - rewrite filter_In. intros [_ H]. rewrite String.eqb_refl in H. discriminate.
  - apply List.NoDup_filter, IH.
Qed.

Lemma in_flush x cur rest : In x (flush cur rest) -> x = cur /\ cur <> EmptyString \/ In x rest.
Proof.
  destruct cur; simpl; [auto|].
  intros [<-|H]; [left; split; [reflexivity|discriminate]|right; exact H].
Qed.

Lemma split_from_nonempty cur s : ~ In EmptyString (split_from cur s).
Proof.
  revert cur. induction s as [|c s IH]; intros cur Hin; simpl in Hin.
  - apply in_flush in Hin. destruct Hin as [[<- Hne]|[]]. congruence.
  - destruct (is_space c).
    + apply in_flush in Hin. destruct Hin as [[<- Hne]|Hin]; [congruence|].
      exact (IH _ Hin).
    + exact (IH _ Hin).
Qed.

(** A query word is never the empty string. *)
Lemma split_nonempty s : ~ In EmptyString (split s).
Proof. apply split_from_nonempty. Qed.

End PyStrFacts.

Lemma exact_word_spec q s :
  exact_word (query_words_of q) s = true <-> is_query_word (PyStr.split q) s.
Proof.
  unfold exact_word, query_words_of, is_query_word.
  rewrite PyStrFacts.mem_In. apply PyStrFacts.in_list_of_set.
Qed.

Lemma word_or_substring_spec q s :
  word_or_substring (query_words_of q) s = true
  <-> is_query_word (PyStr.split q) s \/ has_query_word_inside (PyStr.split q) s.
Proof.
  unfold word_or_substring. rewrite orb_true_iff.
  fold (exact_word (query_words_of q) s). rewrite exact_word_spec.
  unfold has_query_word_inside, query_words_of. rewrite existsb_exists.
  split; (intros [H|(w & Hw & Hc)]; [left; exact H|right; exists w; split; [|exact Hc]]).
  - apply PyStrFacts.in_list_of_set, Hw.
  - apply PyStrFacts.in_list_of_set, Hw.
Qed.

Lemma in_collect_reasons p q r :
  In r (collect_reasons p (query_words_of q)) <-> qualifies p q r.
Proof.
  unfold collect_reasons, qualifies. cbv zeta.
  rewrite !in_app_iff, !filter_In, !word_or_substring_spec, exact_word_spec.
  assert (Hcat : In r (if exact_word (query_words_of q) (p_category p)
                       then [p_category p] else [])
                 <-> r = p_category p /\ is_query_word (PyStr.split q) r).
  { destruct (exact_word (query_words_of q) (p_category p)) eqn:E; simpl.
    - apply exact_word_spec in E. split.
      + intros [<-|[]]. auto.
      + intros [-> _]. auto.
    - split; [tauto|]. intros [-> H]. apply exact_word_spec in H. congruence. }
  assert (Hsub : In r (if exact_word (query_words_of q) (default "" (p_subcategory p))
                       then [default "" (p_subcategory p)] else [])
                 <-> p_subcategory p = Some r /\ is_query_word (PyStr.split q) r).
  { destruct (p_subcategory p) as [sub|]; simpl.
    - destruct (exact_word (query_words_of q) sub) eqn:E; simpl.
      + apply exact_word_spec in E. split.
        * intros [<-|[]]. auto.
        * intros [[= ->] _]. auto.
      + split; [tauto|]. intros [[= ->] H]. apply exact_word_spec in H. congruence.
    - destruct (exact_word (query_words_of q) "") eqn:E; simpl.
      + apply exact_word_spec in E. unfold is_query_word in E. simpl in E.
        exfalso. exact (PyStrFacts.split_nonempty q E).
      + split; [tauto|]. intros [? _]. discriminate. }
  rewrite Hcat, Hsub. tauto.
Qed.

(** C4, as the code has it.  The reasons returned for an item and a
    lower-cased query are the first five of an enumeration, without
    repetition, of the strings of the item that satisfy the rule of their
    field: there are at most five, no two are equal, each is a string of
    the item's tags, occasions, seasons, category or subcategory that
    satisfies its rule, and when at most five distinct strings satisfy
    their rule all of them are returned. *)
Theorem match_reasons_first_five_qualifying (p : product) (query_lower : string) :
  let reasons := compute_match_reasons p query_lower in
  (length reasons <= 5)%nat
  /\ List.NoDup reasons
  /\ (forall r, In r reasons -> qualifies p query_lower r)
  /\ (exists distinct,
        List.NoDup distinct
        /\ (forall r, In r distinct <-> qualifies p query_lower r)
        /\ reasons = firstn 5 distinct
        /\ ((length distinct <= 5)%nat ->
            forall r, In r reasons <-> qualifies p query_lower r)).
Proof.
  cbv zeta. unfold compute_match_reasons, PyStr.slice_to.
  set (distinct := PyStr.list_of_set (collect_reasons p (query_words_of query_lower))).
  assert (Hnd : List.NoDup distinct) by apply PyStrFacts.NoDup_list_of_set.
  assert (Hin : forall r, In r distinct <-> qualifies p query_lower r).
  { intros r. unfold distinct. rewrite PyStrFacts.in_list_of_set.
    apply in_collect_reasons. }
  split; [apply firstn_le_length|].
  split; [apply NoDup_firstn, Hnd|].
  split; [intros r Hr; apply Hin; eapply in_firstn; exact Hr|].
  exists distinct. split; [exact Hnd|]. split; [exact Hin|]. split; [reflexivity|].
  intros Hlen r. rewrite firstn_all2 by exact Hlen. apply Hin.
Qed.

(** ** The worked catalog *)

Example build_text_ex :
  build_text red_dress
  = "Red Summer Dress Light cotton dress Dresses Casual women dress summer wedding Summer cotton Dark Red".
Proof. reflexivity. Qed.

Example reasons_ex :
  compute_match_reasons red_dress (PyStr.lower "Summer WEDDING dresses")
  = ["summer"; "wedding"; "Summer"; "Dresses"].
Proof. reflexivity. Qed.

Example reasons_cap_ex :
  compute_match_reasons six_red_tags "red"
  = ["red"; "redwood"; "bored"; "tired"; "credit"].
Proof. reflexivity. Qed.

Example startup_ex :
  fst (startup_load_products demo_catalog demo_encoder initial_store) = Ok tt
  /\ option_map ix_dimension (index demo_store) = Some 2%nat
  /\ option_map (fun ix => length (ix_vectors ix)) (index demo_store) = Some 5%nat.
Proof. repeat split; reflexivity. Qed.

(** Startup, by contrast, does write the globals. *)
Example startup_writes_globals_ex :
  ~ read_only (startup_load_products demo_catalog demo_encoder).
Proof.
  intros H. destruct (H initial_store) as [Hproducts _].
  change (products (snd (startup_load_products demo_catalog demo_encoder initial_store)))
    with demo_catalog in Hproducts.
  discriminate Hproducts.
Qed.

Example not_ready_ex :
  fst (search_products demo_request initial_store) = Ok NotReady503.
Proof. reflexivity. Qed.

(** One request served from end to end on the catalog of one item. *)
Example single_item_search_ex :
  fst (search_products demo_request single_store)
  = Ok (response_of demo_request
          [score_product ["red"] (JStr "low") "Red dress" red_dress
             (Vec.dot_aux
                (Vec.normalize (query_vector demo_encoder "Red dress"))
                (Vec.normalize (embed_one demo_encoder (build_text red_dress))))]).
Proof. reflexivity. Qed.

Lemma demo_ready : ready demo_store /\ products demo_store = demo_catalog.
Proof.
  apply (startup_ready demo_catalog demo_encoder 2 initial_store).
  - discriminate.
  - reflexivity.
Qed.

(** C1, on the worked catalog: the request is answered, with a sorted
    list. *)
Lemma search_results_sorted_within_topk_witness :
  exists resp s',
    search_products demo_request demo_store = (Ok (SearchOk resp), s')
    /\ StronglySorted score_desc (resp_products resp).
Proof.
  destruct (search_results_sorted_within_topk demo_request demo_store)
    as [Hsorted Hreturns].
  destruct (Hreturns (proj1 demo_ready) eq_refl ["red"] eq_refl) as (resp & s' & Hrun).
  exists resp, s'. split; [exact Hrun|]. exact (proj1 (Hsorted resp s' Hrun)).
Defined.

(** C3, on the red dress with the preferences "Red" and "low". *)
Lemma boost_in_value_set_witness :
  exists fav,
    fav_colors_of demo_prefs = Ok fav
    /\ In (boosted_score fav (budget_of demo_prefs) red_dress 0.5 - 0.5)%R boost_values.
Proof.
  destruct (boost_in_value_set demo_prefs (Some ["Red"]) (Some Low) red_dress 0.5%R
              eq_refl eq_refl) as (fav & Hfav & _ & Hin).
  exists fav. split; [exact Hfav|exact Hin].
Defined.

(** C5, on an index of three vectors with [k = 2]. *)
Lemma index_search_topk_sorted_witness :
  exists hits,
    index_search demo_index [1; 0]%R 2 = Ok hits
    /\ length hits = 2%nat
    /\ StronglySorted hit_order hits.
Proof.
  destruct (index_search_topk_sorted demo_index [1; 0]%R 2)
    as (hits & Hrun & _ & Hlen & Hsorted & _).
  - lia.
  - simpl. lia.
  - repeat constructor.
  - exists hits. split; [exact Hrun|]. split; [exact Hlen|exact Hsorted].
Defined.

(** C6, scenario C: 5 rows for [top_k = 20]. *)
Lemma search_top_k_above_catalog_size_witness :
  exists resp s',
    search_products wide_request demo_store = (Ok (SearchOk resp), s')
    /\ length (resp_products resp) = 5%nat
    /\ total_results resp = 5%nat.
Proof.
  destruct demo_ready as [Hready Hproducts].
  destruct (search_top_k_above_catalog_size wide_request demo_store []
              Hready eq_refl eq_refl)
    as (resp & s' & scores & Hrun & Hlen & Htotal & _).
  - rewrite Hproducts. simpl. lia.
  - exists resp, s'. rewrite Hproducts in Hlen, Htotal.
    split; [exact Hrun|]. split; [exact Hlen|exact Htotal].
Defined.

(** C8 as stated fails: the error startup raises on the empty catalog is
    the axis error of line 129, not [EmptyCatalog]. *)
Lemma empty_catalog_error_counterexample :
  fst (startup_load_products [] demo_encoder initial_store) = Raise AxisError
  /\ fst (startup_load_products [] demo_encoder initial_store) <> Raise EmptyCatalog.
Proof. split; [reflexivity|discriminate]. Qed.


(** C2, on the preferences of the worked request and on a null colour
    list. *)
Lemma boost_raises_only_on_unreadable_colors_witness :
  (exists resp s', search_products demo_request demo_store = (Ok (SearchOk resp), s'))
  /\ (exists e s', search_products null_colors_request demo_store = (Raise e, s')).
Proof.
  split.
  - exact (proj2 (proj2 (proj2 (proj2
      (boost_raises_only_on_unreadable_colors demo_prefs))))
      demo_store demo_request eq_refl (proj1 demo_ready) eq_refl).
  - exact (proj2 (proj2 (proj2 (proj2
      (boost_raises_only_on_unreadable_colors {[ "favorite_colors" := JNull ]}))))
      demo_store null_colors_request eq_refl (proj1 demo_ready) eq_refl).
Defined.

(** C2 as stated fails: a null colour list raises on line 209, for the
    whole request; so does a list with a number in it; and a colour given
    as one string is read character by character, so that "Red" boosts
    every item with an "e" in a colour name. *)
Lemma malformed_favorite_colors_counterexample :
  fav_colors_of {[ "favorite_colors" := JNull ]} = Raise TypeError
  /\ fst (search_products null_colors_request demo_store) = Raise TypeError
  /\ fav_colors_of {[ "favorite_colors" := JArr [JStr "red"; JNum 7] ]}
     = Raise AttributeError
  /\ fav_colors_of {[ "favorite_colors" := JStr "Red" ]} = Ok ["r"; "e"; "d"]
  /\ color_boost ["r"; "e"; "d"] wool_coat 0.5 = (0.5 + 0.05)%R.
Proof.
  split; [reflexivity|].
  split.
  { rewrite (search_products_raises demo_store null_colors_request TypeError
               (proj1 demo_ready) eq_refl eq_refl). reflexivity. }
  split; [reflexivity|]. split; reflexivity.
Qed.

(** C4, on the boots and the query "leather boots": the subcategory is
    among the three reasons returned, and it satisfies its rule. *)
Lemma match_reasons_first_five_qualifying_witness :
  In "Boots" (compute_match_reasons leather_boots "leather boots")
  /\ qualifies leather_boots "leather boots" "Boots".
Proof.
  assert (Hin : In "Boots" (compute_match_reasons leather_boots "leather boots"))
    by (right; right; left; reflexivity).
  split; [exact Hin|].
  exact (proj1 (proj2 (proj2
           (match_reasons_first_five_qualifying leather_boots "leather boots")))
         "Boots" Hin).
Defined.

(** C4 as stated fails: the six tags of the sampler all contain the query
    word "red", and no list of at most five reasons holds them all. *)
Lemma six_matching_tags_counterexample :
  (forall t, In t (p_tags six_red_tags) ->
     is_query_word (PyStr.split "red") t
     \/ has_query_word_inside (PyStr.split "red") t)
  /\ ~ (forall t, In t (p_tags six_red_tags) ->
          In t (compute_match_reasons six_red_tags "red")).
Proof.
  split.
  - intros t Ht. right. exists "red". split; [left; reflexivity|].
    simpl in Ht. repeat (destruct Ht as [<-|Ht]; [reflexivity|]). destruct Ht.
  - intros Hall.
    assert (Hle : (length (p_tags six_red_tags)
                   <= length (compute_match_reasons six_red_tags "red"))%nat).
    { apply NoDup_incl_length; [|exact Hall].
      repeat (constructor; [simpl; intuition discriminate|]). constructor. }
    simpl in Hle. lia.
Qed.

(* ===================================================================== *)
(** * Further properties *)
(* ===================================================================== *)

(** ** The searchable text *)

Lemma string_app_cons x (a b : string) : (String x a ++ b = String x (a ++ b))%string.
Proof. reflexivity. Qed.

Lemma string_app_empty_l (b : string) : ("" ++ b = b)%string.
Proof. reflexivity. Qed.

Lemma string_app_assoc (a b c : string) : ((a ++ b) ++ c = a ++ (b ++ c))%string.
Proof.
  induction a as [|x a IH]; [reflexivity|].
  rewrite !string_app_cons, IH. reflexivity.
Qed.

Lemma string_app_empty_r (a : string) : (a ++ "" = a)%string.
Proof.
  induction a as [|x a IH]; [reflexivity|].
  rewrite string_app_cons, IH. reflexivity.
Qed.

Lemma flush_app cur l1 l2 : PyStr.flush cur l1 ++ l2 = PyStr.flush cur (l1 ++ l2).
Proof. destruct cur; reflexivity. Qed.

(** Splitting distributes over a space between two strings. *)
Lemma split_from_app_space cur a b :
  PyStr.split_from cur (a ++ String " " b) = PyStr.split_from cur a ++ PyStr.split b.
Proof.
  revert cur. induction a as [|c a IH]; intros cur;
    rewrite ?string_app_empty_l, ?string_app_cons; simpl.
  - rewrite flush_app. reflexivity.
  - destruct (PyStr.is_space c).
    + rewrite IH, flush_app. reflexivity.
    + apply IH.
Qed.

Lemma split_join_space parts :
  PyStr.split (PyStr.join " " parts) = words_of parts.
Proof.
  unfold PyStr.join, words_of.
  induction parts as [|h t IH]; [reflexivity|].
  destruct t as [|h' t'].
  - simpl. rewrite app_nil_r. reflexivity.
  - change (String.concat " " (h :: h' :: t'))
      with (h ++ String " " (String.concat " " (h' :: t')))%string.
    unfold PyStr.split at 1. rewrite split_from_app_space.
    rewrite IH. reflexivity.
Qed.

Lemma split_from_blank_free cur t :
  blank_free t = true ->
  PyStr.split_from cur t = PyStr.flush (cur ++ t) [].
Proof.
  revert cur. induction t as [|c t IH]; intros cur Hbf; simpl.
  - rewrite string_app_empty_r. reflexivity.
  - unfold blank_free in Hbf. simpl in Hbf. apply andb_prop in Hbf.
    destruct Hbf as [Hc Ht]. apply negb_true_iff in Hc. rewrite Hc.
    rewrite (IH _ Ht), string_app_assoc, string_app_cons, string_app_empty_l.
    reflexivity.
Qed.

(** A word with no blank in it is its own single word. *)
Lemma split_blank_free t :
  blank_free t = true -> t <> EmptyString -> PyStr.split t = [t].
Proof.
  intros Hbf Hne. unfold PyStr.split. rewrite split_from_blank_free by exact Hbf.
  simpl. destruct t; [contradiction|reflexivity].
Qed.

Lemma in_words_of_blank_free t parts :
  In t parts -> blank_free t = true -> t <> EmptyString -> In t (words_of parts).
Proof.
  intros Hin Hbf Hne. unfold words_of. apply in_flat_map. exists t.
  split; [exact Hin|]. rewrite (split_blank_free t Hbf Hne). left. reflexivity.
Qed.

(** X1.  The words of the searchable text of an item are the words of its
    name, description, category, subcategory and gender, followed by the
    words of its tags, occasions, seasons, materials and colours, in this
    order; an absent subcategory or gender and an empty collection add no
    word.  So every tag, occasion, season, material or colour that is one
    blank-free word is a word of the text. *)
Theorem build_text_words (p : product) :
  PyStr.split (build_text p)
  = PyStr.split (p_name p) ++ PyStr.split (p_description p)
    ++ PyStr.split (p_category p)
    ++ PyStr.split (default "" (p_subcategory p))
    ++ PyStr.split (default "" (p_gender p))
    ++ words_of (p_tags p) ++ words_of (p_occasions p) ++ words_of (p_seasons p)
    ++ words_of (p_materials p) ++ words_of (p_colors p)
  /\ forall t,
       In t (p_tags p ++ p_occasions p ++ p_seasons p ++ p_materials p ++ p_colors p) ->
       blank_free t = true -> t <> EmptyString ->
       In t (PyStr.split (build_text p)).
Proof.
  assert (Heq : PyStr.split (build_text p)
    = PyStr.split (p_name p) ++ PyStr.split (p_description p)
      ++ PyStr.split (p_category p)
      ++ PyStr.split (default "" (p_subcategory p))
      ++ PyStr.split (default "" (p_gender p))
      ++ words_of (p_tags p) ++ words_of (p_occasions p) ++ words_of (p_seasons p)
      ++ words_of (p_materials p) ++ words_of (p_colors p)).
  { unfold build_text. cbv zeta. rewrite split_join_space.
    unfold words_of at 1. cbn [flat_map]. rewrite !split_join_space, app_nil_r.
    reflexivity. }
  split; [exact Heq|].
  intros t Hin Hbf Hne. rewrite Heq.
  rewrite !in_app_iff in Hin.
  assert (In t (words_of (p_tags p)) \/ In t (words_of (p_occasions p))
          \/ In t (words_of (p_seasons p)) \/ In t (words_of (p_materials p))
          \/ In t (words_of (p_colors p))) as H.
  { destruct Hin as [H|[H|[H|[H|H]]]];
      [left|right; left|do 2 right; left|do 3 right; left|do 4 right];
      apply in_words_of_blank_free; assumption. }
  rewrite !in_app_iff. tauto.
Qed.

Lemma prefix_iff x y :
  String.prefix x y = true <-> exists b, (y = x ++ b)%string.
Proof.
  revert y. induction x as [|c x IH]; intros y.
  - split; [intros _; exists y; reflexivity|]. intros _. destruct y; reflexivity.
  - destruct y as [|d y].
    + split; [discriminate|]. intros [b Hb]. rewrite string_app_cons in Hb. discriminate.
    + change (String.prefix (String c x) (String d y))
        with (if Ascii.ascii_dec c d then String.prefix x y else false).
      destruct (Ascii.ascii_dec c d) as [->|Hne].
      * rewrite IH. split; intros [b Hb]; exists b.
        -- rewrite string_app_cons, Hb. reflexivity.
        -- rewrite string_app_cons in Hb. congruence.
      * split; [discriminate|]. intros [b Hb]. rewrite string_app_cons in Hb. congruence.
Qed.

Lemma contains_empty x :
  PyStr.contains x EmptyString = String.prefix x EmptyString || false.
Proof. reflexivity. Qed.

Lemma contains_cons x d y :
  PyStr.contains x (String d y) = String.prefix x (String d y) || PyStr.contains x y.
Proof. reflexivity. Qed.

(** [x in y] holds exactly when [y] is [x] between two strings. *)
Lemma contains_iff x y :
  PyStr.contains x y = true <-> exists a b, (y = a ++ x ++ b)%string.
Proof.
  induction y as [|d y IH]; rewrite ?contains_empty, ?contains_cons;
    rewrite orb_true_iff, prefix_iff.
  - split.
    + intros [[b Hb]|H]; [|discriminate]. exists EmptyString, b. exact Hb.
    + intros (a & b & Hab). left.
      destruct a; [|rewrite string_app_cons in Hab; discriminate].
      exists b. exact Hab.
  - rewrite IH. split.
    + intros [[b Hb]|(a & b & Hab)].
      * exists EmptyString, b. exact Hb.
      * exists (String d a), b. rewrite string_app_cons, Hab. reflexivity.
    + intros (a & b & Hab). destruct a as [|e a].
      * left. exists b. exact Hab.
      * right. rewrite string_app_cons in Hab. exists a, b. congruence.
Qed.

Lemma contains_trans x y z :
  PyStr.contains x y = true -> PyStr.contains y z = true -> PyStr.contains x z = true.
Proof.
  rewrite !contains_iff. intros (a & b & ->) (a' & b' & ->).
  exists (a' ++ a)%string, (b ++ b')%string.
  rewrite !string_app_assoc. reflexivity.
Qed.

Lemma contains_join sep x parts :
  In x parts -> PyStr.contains x (PyStr.join sep parts) = true.
Proof.
  unfold PyStr.join. intros Hin. apply contains_iff.
  induction parts as [|h t IH]; [destruct Hin|].
  destruct t as [|h' t'].
  - destruct Hin as [->|[]]. exists EmptyString, EmptyString.
    rewrite string_app_empty_l, string_app_empty_r. reflexivity.
  - change (String.concat sep (h :: h' :: t'))
      with (h ++ sep ++ String.concat sep (h' :: t'))%string.
    destruct Hin as [->|Hin].
    + exists EmptyString, (sep ++ String.concat sep (h' :: t'))%string. reflexivity.
    + destruct (IH Hin) as (a & b & Hab). rewrite Hab.
      exists (h ++ sep ++ a)%string, b. rewrite !string_app_assoc. reflexivity.
Qed.

(** X2.  Every field the searchable text is built from occurs in it
    verbatim: the name, the description, the category, the subcategory and
    the gender when present, and each tag, occasion, season, material and
    colour, also one of several words. *)
Theorem build_text_contains_fields (p : product) (x : string) :
  x = p_name p \/ x = p_description p \/ x = p_category p
  \/ p_subcategory p = Some x \/ p_gender p = Some x
  \/ In x (p_tags p) \/ In x (p_occasions p) \/ In x (p_seasons p)
  \/ In x (p_materials p) \/ In x (p_colors p) ->
  PyStr.contains x (build_text p) = true.
Proof.
  intros H. unfold build_text. cbv zeta.
  assert (Hpart : forall part,
            In part [p_name p; p_description p; p_category p;
                     default "" (p_subcategory p); default "" (p_gender p);
                     PyStr.join " " (p_tags p); PyStr.join " " (p_occasions p);
                     PyStr.join " " (p_seasons p); PyStr.join " " (p_materials p);
                     PyStr.join " " (p_colors p)] ->
            PyStr.contains x part = true ->
            PyStr.contains x
              (PyStr.join " "
                 [p_name p; p_description p; p_category p;
                  default "" (p_subcategory p); default "" (p_gender p);
                  PyStr.join " " (p_tags p); PyStr.join " " (p_occasions p);
                  PyStr.join " " (p_seasons p); PyStr.join " " (p_materials p);
                  PyStr.join " " (p_colors p)]) = true).
  { intros part Hin Hc. eapply contains_trans; [exact Hc|].
    apply contains_join, Hin. }
  assert (Hself : PyStr.contains x x = true).
  { apply contains_iff. exists EmptyString, EmptyString.
    rewrite string_app_empty_l, string_app_empty_r. reflexivity. }
  destruct H as [->|[->|[->|[Hs|[Hg|[H|[H|[H|[H|H]]]]]]]]].
  - apply (Hpart (p_name p)); [simpl; tauto|exact Hself].
  - apply (Hpart (p_description p)); [simpl; tauto|exact Hself].
  - apply (Hpart (p_category p)); [simpl; tauto|exact Hself].
  - apply (Hpart (default "" (p_subcategory p))); [simpl; tauto|].
    rewrite Hs. exact Hself.
  - apply (Hpart (default "" (p_gender p))); [simpl; tauto|].
    rewrite Hg. exact Hself.
  - apply (Hpart (PyStr.join " " (p_tags p))); [simpl; tauto|apply contains_join, H].
  - apply (Hpart (PyStr.join " " (p_occasions p))); [simpl; tauto|apply contains_join, H].
  - apply (Hpart (PyStr.join " " (p_seasons p))); [simpl; tauto|apply contains_join, H].
  - apply (Hpart (PyStr.join " " (p_materials p))); [simpl; tauto|apply contains_join, H].
  - apply (Hpart (PyStr.join " " (p_colors p))); [simpl; tauto|apply contains_join, H].
Qed.

(** X1, on the red dress: its tag "summer" is a word of its text. *)
Lemma build_text_words_witness : In "summer" (PyStr.split (build_text red_dress)).
Proof.
  apply (proj2 (build_text_words red_dress) "summer").
  - simpl. tauto.
  - reflexivity.
  - discriminate.
Defined.

(** X2, on the red dress: its colour "Dark Red" occurs in its text. *)
Lemma build_text_contains_fields_witness :
  PyStr.contains "Dark Red" (build_text red_dress) = true.
Proof.
  apply (build_text_contains_fields red_dress "Dark Red").
  do 9 right. left. reflexivity.
Defined.

(** ** Rows the normalisation cannot scale *)

(** X3.  In binary32 the three normalisation lines keep the length of a
    row, but do not always give it length one.  A NaN anywhere in the row
    makes the norm NaN, which line 130 does not replace, and the whole row
    NaN.  A row of finite values whose computed norm has overflowed to
    +infinity is stored as a row of zeros, each with the sign its entry
    had. *)
Theorem normalize_float32_degenerate_rows (v : F32.vector) :
  length (F32.normalize v) = length v
  /\ (existsb F32.is_nan v = true ->
      F32.normalize v = map (fun _ => S754_nan) v)
  /\ (forallb F32.is_finite v = true ->
      F32.norm v = S754_infinity false ->
      F32.normalize v = map F32.signed_zero v).
Proof.
  split; [unfold F32.normalize, F32.div_by; apply length_map|].
  split.
  - intros Hnan. unfold F32.normalize, F32.norm, F32.sum_sq.
    rewrite (F32Facts.fold_sq_nan v F32.zero Hnan).
    change (F32.guard_zero (F32.sqrt S754_nan)) with S754_nan.
    unfold F32.div_by. apply map_ext. intros x. destruct x; reflexivity.
  - intros Hfin Hinf. unfold F32.normalize. rewrite Hinf.
    change (F32.guard_zero (S754_infinity false)) with (S754_infinity false).
    unfold F32.div_by. apply map_ext_in. intros x Hx.
    assert (Hxf : F32.is_finite x = true).
    { rewrite forallb_forall in Hfin. apply Hfin, Hx. }
    destruct x as [s|s| |s m e]; try discriminate; simpl;
      unfold F32.div; simpl; rewrite xorb_false_r; reflexivity.
Qed.

(** X3 on the row [2^100, -1]: the square of 2^100 is beyond binary32, the
    norm is +infinity and the row is stored as [+0, -0]. *)
Lemma normalize_float32_degenerate_rows_witness :
  F32.norm overflow_row = S754_infinity false
  /\ F32.normalize overflow_row = [S754_zero false; S754_zero true].
Proof.
  split; [vm_compute; reflexivity|].
  change [S754_zero false; S754_zero true] with (map F32.signed_zero overflow_row).
  apply (proj2 (proj2 (normalize_float32_degenerate_rows overflow_row))).
  - vm_compute. reflexivity.
  - vm_compute. reflexivity.
Defined.


(** ** Rounding and the reach of the boosts *)

Lemma Rabs_le_bounds a b : (Rabs a <= b -> - b <= a <= b)%R.
Proof.
  intros H. pose proof (Rle_abs a) as H1. pose proof (Rle_abs (- a)) as H2.
  rewrite Rabs_Ropp in H2. lra.
Qed.

Lemma round_half_even_error x :
  (Rabs (IZR (round_half_even x) - x) <= 1 / 2)%R.
Proof.
  unfold round_half_even. cbv zeta.
  destruct (base_Int_part x) as [Hlo Hhi].
  assert (Hd : frac_part x = (x - IZR (Int_part x))%R) by reflexivity.
  apply Rabs_le.
  destruct (Rltb (frac_part x) (1 / 2)) eqn:E1.
  - apply Rltb_true in E1. lra.
  - apply Rltb_false in E1.
    destruct (Rltb (1 / 2) (frac_part x)) eqn:E2.
    + rewrite plus_IZR. lra.
    + apply Rltb_false in E2. destruct (Z.even (Int_part x)); [lra|].
      rewrite plus_IZR. lra.
Qed.

Lemma round4_error x : (Rabs (round4 x - x) <= 1 / 20000)%R.
Proof.
  unfold round4. pose proof (round_half_even_error (x * 10000)) as H.
  apply Rabs_le_bounds in H. apply Rabs_le. lra.
Qed.

Lemma boosted_score_range fav budget p score :
  (score <= boosted_score fav budget p score <= score + 0.10)%R.
Proof.
  pose proof (boosted_score_in_values fav budget p score) as H.
  unfold boost_values in H. simpl in H.
  destruct H as [H|[H|[H|[H|[H|[H|[H|[]]]]]]]]; lra.
Qed.

(** X6.  The score a result row reports is the similarity of the item
    raised by some boost between 0 and 0.10 and rounded: it differs from
    the boosted score by at most 0.00005, so it is never more than
    0.00005 below the similarity and never more than 0.10005 above it. *)
Theorem reported_score_range (fav : list string) (budget : json) (q : string)
    (p : product) (score : R) :
  let r := score_product fav budget q p score in
  (Rabs (similarity_score r - boosted_score fav budget p score) <= 0.00005)%R
  /\ (score - 0.00005 <= similarity_score r <= score + 0.10005)%R.
Proof.
  cbv zeta. unfold score_product. simpl.
  pose proof (round4_error (boosted_score fav budget p score)) as H.
  pose proof (boosted_score_range fav budget p score) as Hb.
  split.
  - eapply Rle_trans; [exact H|lra].
  - apply Rabs_le_bounds in H. lra.
Qed.

(** X7.  Personalisation cannot overturn a gap of more than 0.1001: an
    item whose similarity exceeds that of another by more is reported with
    the strictly higher score, whatever the preferences and the items. *)
Theorem boost_cannot_overturn_large_gap (fav : list string) (budget : json)
    (q : string) (p1 p2 : product) (score1 score2 : R) :
  (score2 + 0.1001 < score1)%R ->
  (similarity_score (score_product fav budget q p2 score2)
   < similarity_score (score_product fav budget q p1 score1))%R.
Proof.
  intros Hgap.
  destruct (reported_score_range fav budget q p1 score1) as [_ H1].
  destruct (reported_score_range fav budget q p2 score2) as [_ H2].
  cbv zeta in H1, H2. lra.
Qed.

(** X7, on similarities 0.9 and 0.5 with the worked preferences. *)
Lemma boost_cannot_overturn_large_gap_witness :
  (similarity_score (score_product ["red"] (JStr "low") "Red dress" red_dress 0.5)
   < similarity_score (score_product ["red"] (JStr "low") "Red dress" gold_watch 0.9))%R.
Proof. apply boost_cannot_overturn_large_gap. lra. Defined.

Lemma Int_part_le x y : (x <= y)%R -> (Int_part x <= Int_part y)%Z.
Proof.
  intros Hxy. destruct (base_Int_part x) as [Hx1 Hx2].
  destruct (base_Int_part y) as [Hy1 Hy2].
  destruct (Z_le_gt_dec (Int_part x) (Int_part y)) as [H|H]; [exact H|].
  assert (Hz : (IZR (Int_part y + 1) <= IZR (Int_part x))%R) by (apply IZR_le; lia).
  rewrite plus_IZR in Hz. lra.
Qed.

Lemma round_half_even_bounds x :
  (Int_part x <= round_half_even x <= Int_part x + 1)%Z.
Proof.
  unfold round_half_even. cbv zeta.
  destruct (Rltb (frac_part x) (1 / 2)); [lia|].
  destruct (Rltb (1 / 2) (frac_part x)); [lia|].
  destruct (Z.even (Int_part x)); lia.
Qed.

Lemma round_half_even_mono x y :
  (x <= y)%R -> (round_half_even x <= round_half_even y)%Z.
Proof.
  intros Hxy. pose proof (Int_part_le x y Hxy) as Hf.
  destruct (Z.eq_dec (Int_part x) (Int_part y)) as [Heq|Hne].
  - unfold round_half_even, frac_part. cbv zeta. rewrite Heq.
    destruct (Rltb (x - IZR (Int_part y)) (1 / 2)) eqn:E1,
             (Rltb (y - IZR (Int_part y)) (1 / 2)) eqn:E2,
             (Rltb (1 / 2) (x - IZR (Int_part y))) eqn:E3,
             (Rltb (1 / 2) (y - IZR (Int_part y))) eqn:E4;
      rewrite ?Rltb_true, ?Rltb_false in *;
      try lra; destruct (Z.even (Int_part y)); lia.
  - pose proof (round_half_even_bounds x). pose proof (round_half_even_bounds y). lia.
Qed.

Lemma round4_mono x y : (x <= y)%R -> (round4 x <= round4 y)%R.
Proof.
  intros Hxy. unfold round4.
  assert (H : (IZR (round_half_even (x * 10000)) <= IZR (round_half_even (y * 10000)))%R).
  { apply IZR_le, round_half_even_mono. lra. }
  lra.
Qed.

(** The stable sort leaves a list that is already in order as it is. *)
Lemma sort_sorted_same {A} (leb : A -> A -> bool) (l : list A) :
  StronglySorted (leb_rel leb) l -> sort leb l = l.
Proof.
  induction 1 as [|x l Hs IH Hx]; [reflexivity|].
  simpl. rewrite IH. destruct l as [|y l']; [reflexivity|].
  simpl. inversion Hx as [|? ? Hxy _]; subst. unfold leb_rel in Hxy.
  rewrite Hxy. reflexivity.
Qed.

Lemma rows_of_hits_sorted_no_boost budget q ps hits :
  (forall t, budget <> JStr (tier_name t)) ->
  StronglySorted pair_desc hits ->
  StronglySorted (leb_rel score_geb) (rows_of_hits [] budget q ps hits).
Proof.
  intros Hb. induction 1 as [|hit hits Hs IH Hhit]; [constructor|].
  unfold rows_of_hits in *. simpl.
  unfold row_of_hit at 1.
  destruct ((fst hit <? 0)%Z || (Z.of_nat (length ps) <=? fst hit)%Z); [exact IH|].
  destruct (nth_error ps (Z.to_nat (fst hit))) as [p|]; [|exact IH].
  simpl. constructor; [exact IH|].
  apply List.Forall_forall. intros r Hr.
  apply (in_rows_of_hits [] budget q ps hits r) in Hr.
  destruct Hr as (idx & sc & p' & Hin & _ & _ & ->).
  rewrite List.Forall_forall in Hhit. specialize (Hhit _ Hin).
  unfold pair_desc in Hhit. simpl in Hhit.
  unfold leb_rel, score_geb. apply Rleb_true.
  unfold score_product, boosted_score. simpl.
  rewrite !budget_boost_other by exact Hb.
  apply round4_mono. exact Hhit.
Qed.

(** X8.  A request that states no favourite colours and no budget tier is
    answered in the order of retrieval: when the pairs come back from the
    index in descending order of score, the re-sort of line 259 moves
    nothing, also among rows whose rounded scores are equal. *)
Theorem no_preferences_keeps_retrieval_order (req : SearchRequest) (s : store)
    (ix : IndexFlatIP) (m : TextEmbedding) (hits : list (Z * R)) :
  index s = Some ix -> model s = Some m ->
  index_search ix (query_vector m (query req)) (top_k req) = Ok hits ->
  StronglySorted pair_desc hits ->
  user_preferences req !! "favorite_colors" = None ->
  (forall t, user_preferences req !! "budget" <> Some (JStr (tier_name t))) ->
  fst (search_products req s)
  = Ok (response_of req
          (rows_of_hits [] (budget_of (user_preferences req)) (query req)
             (products s) hits)).
Proof.
  intros Hix Hm Hsearch Hsorted Hcol Hbud.
  rewrite (search_products_run req s ix m Hix Hm), Hsearch.
  assert (Hfav : fav_colors_of (user_preferences req) = Ok []).
  { unfold fav_colors_of, Py.get. rewrite Hcol. reflexivity. }
  rewrite Hfav. simpl. unfold ranked_rows, sort_results.
  rewrite sort_sorted_same; [reflexivity|].
  apply rows_of_hits_sorted_no_boost; [|exact Hsorted].
  intros t. unfold budget_of, Py.get.
  destruct (user_preferences req !! "budget") as [v|] eqn:E; simpl.
  - intros ->. exact (Hbud t eq_refl).
  - destruct t; discriminate.
Qed.

Lemma hit_order_pair_desc l : StronglySorted hit_order l -> StronglySorted pair_desc l.
Proof.
  induction 1 as [|x l Hs IH Hx]; constructor; [exact IH|].
  eapply List.Forall_impl; [|exact Hx].
  intros y [H|[H _]]; unfold pair_desc; lra.
Qed.

(** X8, on the worked catalog and the request without preferences. *)
Lemma no_preferences_keeps_retrieval_order_witness :
  exists hits,
    fst (search_products wide_request demo_store)
    = Ok (response_of wide_request
            (rows_of_hits [] (JStr "") "boots" demo_catalog hits)).
Proof.
  destruct demo_ready as [(ix & m & Hix & Hm & Hlen & Hdim & Hd) Hproducts].
  pose proof (ready_search_ok demo_store wide_request ix m Hix Hm Hdim Hd eq_refl)
    as Hsearch.
  eexists.
  rewrite (no_preferences_keeps_retrieval_order wide_request demo_store ix m _
             Hix Hm Hsearch).
  - rewrite Hproducts. reflexivity.
  - apply StronglySorted_firstn, hit_order_pair_desc, sorted_all_hits.
  - reflexivity.
  - intros t H. vm_compute in H. discriminate H.
Defined.

(** ** Startup and the health endpoint *)

Lemma startup_final_store catalog encoder s :
  exists r built,
    startup_load_products catalog encoder s
    = (r, mkStore catalog (map build_text catalog) built (Some encoder) (results s)).
Proof.
  unfold startup_load_products, index_add_in_place, bind, set_products, get_products,
    set_product_texts, set_model, get_product_texts, set_index, get_index, lift.
  cbn [products product_texts index model results].
  destruct (Vec.np_array (embed encoder (map build_text catalog))) as [a|e];
    [|eexists _, _; reflexivity].
  destruct (Vec.normalize_rows a) as [a'|e]; [|eexists _, _; reflexivity].
  destruct (Vec.shape1 a') as [d|e]; [|eexists _, _; reflexivity].
  cbn [products product_texts index model results].
  destruct (index_add (index_new d) a') as [built|e]; eexists _, _; reflexivity.
Qed.

(** What startup has written when it stops, with or without an error:
    the catalog, its texts and the encoder are set before anything can
    fail. *)
Lemma startup_sets_catalog catalog encoder s :
  let s' := snd (startup_load_products catalog encoder s) in
  products s' = catalog
  /\ product_texts s' = map build_text catalog
  /\ model s' = Some encoder.
Proof.
  cbv zeta. destruct (startup_final_store catalog encoder s) as (r & built & ->).
  repeat split.
Qed.

(** X9.  The health endpoint always answers "healthy", writes nothing, and
    reports as [products_indexed] the number of catalog items loaded: 0
    before startup and the size of the catalog after it, also when
    startup stopped with an error and no index was built. *)
Theorem health_reports_loaded_products :
  (forall s,
     health s = (Ok {| h_status := "healthy";
                       products_indexed := length (products s);
                       h_model := "all-MiniLM-L6-v2";
                       h_index_type := "FAISS IndexFlatIP (cosine)" |}, s))
  /\ (exists r, fst (health initial_store) = Ok r /\ products_indexed r = 0%nat)
  /\ (forall catalog encoder s,
        exists r,
          fst (health (snd (startup_load_products catalog encoder s))) = Ok r
          /\ h_status r = "healthy"
          /\ products_indexed r = length catalog)
  /\ (forall encoder,
        exists r s',
          startup_load_products [] encoder initial_store = (Raise AxisError, s')
          /\ fst (health s') = Ok r /\ h_status r = "healthy").
Proof.
  split; [reflexivity|].
  split; [eexists; split; reflexivity|].
  split.
  - intros catalog encoder s.
    destruct (startup_sets_catalog catalog encoder s) as [Hp _].
    eexists. split; [reflexivity|]. simpl. split; [reflexivity|].
    rewrite Hp. reflexivity.
  - intros encoder. eexists _, _. repeat split; reflexivity.
Qed.

(** X10.  Startup on a catalog that is not empty, with an encoder whose
    vectors all have dimension [d], raises nothing and leaves the process
    ready: the index has dimension [d] and holds, at each catalog
    position, the normalised encoding of the searchable text of the item
    at that position, and there is one text per item. *)
Theorem startup_builds_aligned_index (catalog : list product)
    (encoder : TextEmbedding) (d : nat) (s : store) :
  catalog <> [] ->
  (forall t, length (embed_one encoder t) = d) ->
  exists s' ix,
    startup_load_products catalog encoder s = (Ok tt, s')
    /\ ready s'
    /\ products s' = catalog
    /\ length (product_texts s') = length catalog
    /\ index s' = Some ix
    /\ ix_dimension ix = d
    /\ length (ix_vectors ix) = length catalog
    /\ forall i p,
         nth_error catalog i = Some p ->
         nth_error (product_texts s') i = Some (build_text p)
         /\ nth_error (ix_vectors ix) i
            = Some (Vec.normalize (embed_one encoder (build_text p))).
Proof.
  intros Hne Hd.
  pose proof (startup_ready catalog encoder d s Hne Hd) as [Hready Hp].
  rewrite (startup_run catalog encoder d s Hne Hd) in Hready, Hp.
  eexists _, _. split; [apply (startup_run catalog encoder d s Hne Hd)|].
  split; [exact Hready|].
  cbn [products product_texts index model results ix_dimension ix_vectors].
  split; [reflexivity|]. split; [apply length_map|].
  split; [reflexivity|]. split; [reflexivity|].
  split; [cbn [ix_vectors]; unfold embed; rewrite !length_map; reflexivity|].
  intros i p Hi. cbn [ix_vectors]. unfold embed. split.
  - rewrite nth_error_map, Hi. reflexivity.
  - rewrite !nth_error_map, Hi. reflexivity.
Qed.

(** X10, on the worked catalog. *)
Lemma startup_builds_aligned_index_witness :
  exists s' ix,
    startup_load_products demo_catalog demo_encoder initial_store = (Ok tt, s')
    /\ index s' = Some ix
    /\ length (ix_vectors ix) = 5%nat.
Proof.
  destruct (startup_builds_aligned_index demo_catalog demo_encoder 2 initial_store)
    as (s' & ix & Hrun & _ & _ & _ & Hix & _ & Hlen & _).
  - discriminate.
  - reflexivity.
  - exists s', ix. split; [exact Hrun|]. split; [exact Hix|exact Hlen].
Defined.

(** ** The handler at its edges *)

(** X11.  A search is answered "Index not ready" exactly when the index
    or the encoder is unset, and then the store, the result list
    included, is left as it was; the preferences are not looked at. *)
Theorem not_ready_iff_unset (req : SearchRequest) (s : store) :
  (fst (search_products req s) = Ok NotReady503
   <-> index s = None \/ model s = None)
  /\ (index s = None \/ model s = None -> snd (search_products req s) = s).
Proof.
  split.
  - split.
    + intros H. destruct (index s) as [ix|] eqn:Hix; [|left; reflexivity].
      destruct (model s) as [m|] eqn:Hm; [|right; reflexivity].
      rewrite (search_products_run req s ix m Hix Hm) in H.
      destruct (index_search ix (query_vector m (query req)) (top_k req));
        [|discriminate].
      destruct (fav_colors_of (user_preferences req)); discriminate.
    + intros H. rewrite (search_products_not_ready req s H). reflexivity.
  - intros H. rewrite (search_products_not_ready req s H). reflexivity.
Qed.

(** X11, on the store before startup. *)
Lemma not_ready_iff_unset_witness :
  snd (search_products null_colors_request initial_store) = initial_store.
Proof.
  apply (proj2 (not_ready_iff_unset null_colors_request initial_store)).
  left. reflexivity.
Defined.

Lemma with_results_twice s rs rs' :
  with_results (with_results s rs) rs' = with_results s rs'.
Proof. reflexivity. Qed.

(** X12.  A request carries nothing over from the one before: what the
    handler returns or raises does not depend on the result list it finds
    in the store, and for a validated request on a ready store neither
    does the store it leaves, because line 207 starts from the empty
    list. *)
Theorem search_ignores_earlier_results (req : SearchRequest) (s : store)
    (earlier : list ProductResult) :
  fst (search_products req (with_results s earlier)) = fst (search_products req s)
  /\ (ready s -> valid_request req = true ->
      snd (search_products req (with_results s earlier))
      = snd (search_products req s)).
Proof.
  split.
  - destruct (index s) as [ix|] eqn:Hix;
      [|rewrite !search_products_not_ready by (left; assumption); reflexivity].
    destruct (model s) as [m|] eqn:Hm;
      [|rewrite !search_products_not_ready by (right; assumption); reflexivity].
    assert (Hix' : index (with_results s earlier) = Some ix) by exact Hix.
    assert (Hm' : model (with_results s earlier) = Some m) by exact Hm.
    rewrite (search_products_run req _ ix m Hix' Hm').
    rewrite (search_products_run req s ix m Hix Hm).
    destruct (index_search ix (query_vector m (query req)) (top_k req)) as [hits|e];
      [|reflexivity].
    destruct (fav_colors_of (user_preferences req)) as [fav|e]; reflexivity.
  - intros (ix & m & Hix & Hm & _ & Hdim & Hd) Hv.
    assert (Hix' : index (with_results s earlier) = Some ix) by exact Hix.
    assert (Hm' : model (with_results s earlier) = Some m) by exact Hm.
    rewrite (search_products_run req _ ix m Hix' Hm').
    rewrite (search_products_run req s ix m Hix Hm).
    rewrite (ready_search_ok s req ix m Hix Hm Hdim Hd Hv).
    destruct (fav_colors_of (user_preferences req)) as [fav|e]; reflexivity.
Qed.

(** X12, on the worked catalog with a row left over. *)
Lemma search_ignores_earlier_results_witness :
  snd (search_products demo_request
         (with_results demo_store [score_product [] JNull "x" gold_watch 1]))
  = snd (search_products demo_request demo_store).
Proof.
  apply (proj2 (search_ignores_earlier_results demo_request demo_store
                  [score_product [] JNull "x" gold_watch 1])).
  - exact (proj1 demo_ready).
  - reflexivity.
Defined.

(** ** The request boundary *)

Lemma length_rows_of_hits fav budget q ps hits :
  (length (rows_of_hits fav budget q ps hits) <= length hits)%nat.
Proof.
  unfold rows_of_hits. induction hits as [|hit hits IH]; simpl; [lia|].
  rewrite length_app. unfold row_of_hit at 1.
  destruct ((fst hit <? 0)%Z || (Z.of_nat (length ps) <=? fst hit)%Z); simpl; [lia|].
  destruct (nth_error ps (Z.to_nat (fst hit))); simpl; lia.
Qed.

(** X13.  A body with an empty query, a query of more than 500
    characters, or a [top_k] below 1 or above 20 is answered 422 and never
    reaches the handler: the store, result list included, is untouched.  A
    body within the constraints is handed to the handler, and the list it
    is answered with has [total_results] rows, at most [top_k] and so at
    most 20. *)
Theorem post_search_validates (body : SearchRequest) (s : store) :
  (query body = EmptyString \/ (500 < String.length (query body))%nat
   \/ (top_k body < 1)%Z \/ (20 < top_k body)%Z ->
   post_search body s = (Ok Unprocessable422, s))
  /\ (valid_request body = true ->
      forall resp s',
        post_search body s = (Ok (Handled (SearchOk resp)), s') ->
        total_results resp = length (resp_products resp)
        /\ (Z.of_nat (total_results resp) <= top_k body <= 20)%Z).
Proof.
  split.
  - intros H. unfold post_search.
    assert (Hv : valid_request body = false).
    { unfold valid_request. destruct H as [H|[H|[H|H]]].
      - rewrite H. reflexivity.
      - apply Nat.leb_gt in H. rewrite H, andb_false_r. reflexivity.
      - apply Z.leb_gt in H. rewrite H, andb_false_r. reflexivity.
      - apply Z.leb_gt in H. rewrite H, andb_false_r. reflexivity. }
    rewrite Hv. reflexivity.
  - intros Hv resp s' Hrun. unfold post_search in Hrun. rewrite Hv in Hrun.
    unfold bind in Hrun.
    destruct (search_products body s) as [[r|e] s1] eqn:Hs; [|discriminate].
    unfold ret in Hrun. injection Hrun as -> <-.
    pose proof (search_products_sorted_from_hits body s resp s1 Hs) as [_ H].
    destruct H as (ix & m & hits & fav & Hix & Hm & Hsearch & Hfav & _).
    rewrite (search_products_run body s ix m Hix Hm), Hsearch, Hfav in Hs.
    injection Hs as <- _. simpl.
    split; [reflexivity|].
    unfold valid_request in Hv. apply andb_prop in Hv. destruct Hv as [Hv Hk20].
    apply andb_prop in Hv. destruct Hv as [_ Hk1].
    apply Z.leb_le in Hk20, Hk1. split; [|exact Hk20].
    unfold ranked_rows, sort_results. rewrite length_sort.
    pose proof (length_rows_of_hits fav (budget_of (user_preferences body))
                  (query body) (products s) hits) as Hrows.
    assert (Hhits : (length hits <= Z.to_nat (top_k body))%nat).
    { unfold index_search in Hsearch. destruct (top_k body <=? 0)%Z; [discriminate|].
      destruct (rmap _ _); simpl in Hsearch; [|discriminate].
      injection Hsearch as <-. apply firstn_le_length. }
    lia.
Qed.

(** X13, on a body with an empty query and on the worked request. *)
Lemma post_search_validates_witness :
  post_search {| query := ""; user_preferences := ∅; top_k := 5 |} demo_store
  = (Ok Unprocessable422, demo_store)
  /\ post_search {| query := "boots"; user_preferences := ∅; top_k := 21 |} demo_store
     = (Ok Unprocessable422, demo_store).
Proof.
  split.
  - apply (proj1 (post_search_validates _ demo_store)). left. reflexivity.
  - apply (proj1 (post_search_validates _ demo_store)). do 3 right. simpl. lia.
Defined.

(** ** Match reasons at their edges *)

Lemma lower_char_space c : PyStr.is_space c = true -> PyStr.lower_char c = c.
Proof.
  destruct c as [[] [] [] [] [] [] [] []]; intros H; try reflexivity; discriminate H.
Qed.

Lemma split_from_blank cur q :
  is_blank q = true -> PyStr.split_from cur (PyStr.lower q) = PyStr.flush cur [].
Proof.
  induction q as [|c q IH]; intros Hb; [reflexivity|].
  unfold is_blank in Hb. simpl in Hb. apply andb_prop in Hb. destruct Hb as [Hc Hq].
  simpl. rewrite (lower_char_space c Hc), Hc.
  unfold PyStr.split_from in IH. fold PyStr.split_from in IH.
  replace (PyStr.split_from "" (PyStr.lower q)) with (@nil string); [reflexivity|].
  symmetry. clear IH. induction q as [|d q IHq]; [reflexivity|].
  simpl in Hq. apply andb_prop in Hq. destruct Hq as [Hd Hq].
  simpl. rewrite (lower_char_space d Hd), Hd. simpl. apply IHq, Hq.
Qed.

Lemma collect_reasons_no_words p : collect_reasons p [] = [].
Proof.
  unfold collect_reasons, word_or_substring, exact_word, PyStr.mem. simpl.
  assert (H : forall l : list string, List.filter (fun _ => false) l = []).
  { induction l as [|x l IH]; simpl; [reflexivity|exact IH]. }
  rewrite !H. reflexivity.
Qed.

(** X14.  A query made of blanks only has no words, so no reason is
    returned for any item; and such a query, being from 1 to 500
    characters long, passes the validation of the request and is
    searched like any other. *)
Theorem blank_query_gives_no_reasons (q : string) :
  is_blank q = true ->
  (forall p, compute_match_reasons p (PyStr.lower q) = [])
  /\ (forall fav budget p score,
        match_reasons (score_product fav budget q p score) = [])
  /\ ((1 <= String.length q <= 500)%nat ->
      forall prefs k, (1 <= k <= 20)%Z ->
        valid_request {| query := q; user_preferences := prefs; top_k := k |} = true).
Proof.
  intros Hb.
  assert (Hr : forall p, compute_match_reasons p (PyStr.lower q) = []).
  { intros p. unfold compute_match_reasons, query_words_of, PyStr.split. cbv zeta.
    rewrite (split_from_blank EmptyString q Hb). simpl.
    rewrite collect_reasons_no_words. reflexivity. }
  split; [exact Hr|]. split.
  - intros fav budget p score. unfold score_product. simpl. apply Hr.
  - intros [H1 H500] prefs k [Hk1 Hk20]. unfold valid_request.
    cbn [query top_k user_preferences].
    apply Nat.leb_le in H1, H500. apply Z.leb_le in Hk1, Hk20.
    rewrite H1, H500, Hk1, Hk20. reflexivity.
Qed.

(** X14, on a query of three blanks. *)
Lemma blank_query_gives_no_reasons_witness :
  compute_match_reasons red_dress (PyStr.lower "   ") = []
  /\ valid_request {| query := "   "; user_preferences := ∅; top_k := 5 |} = true.
Proof.
  destruct (blank_query_gives_no_reasons "   " eq_refl) as (H1 & _ & H3).
  split; [apply H1|]. apply H3; simpl; lia.
Defined.

Lemma bool_eq_iff (a b : bool) : (a = true <-> b = true) -> a = b.
Proof. destruct a, b; intros [H1 H2]; try reflexivity; [symmetry; auto|auto]. Qed.

Lemma filter_pointwise {A} (f g : A -> bool) l :
  (forall x, f x = g x) -> List.filter f l = List.filter g l.
Proof.
  intros H. induction l as [|x l IH]; simpl; [reflexivity|]. rewrite H, IH. reflexivity.
Qed.

(** X15.  The reasons depend on the query through the set of its words
    only: two queries with the same words, in any order and with any
    repetition or spacing, make the loops of lines 82-100 collect the same
    list for every item, so the same reasons are returned. *)
Theorem reasons_depend_on_word_set (p : product) (q1 q2 : string) :
  (forall w, In w (PyStr.split q1) <-> In w (PyStr.split q2)) ->
  collect_reasons p (query_words_of q1) = collect_reasons p (query_words_of q2)
  /\ compute_match_reasons p q1 = compute_match_reasons p q2.
Proof.
  intros Hw.
  assert (He : forall s, exact_word (query_words_of q1) s
                         = exact_word (query_words_of q2) s).
  { intros s. apply bool_eq_iff. rewrite !exact_word_spec.
    unfold is_query_word. apply Hw. }
  assert (Hs : forall s, word_or_substring (query_words_of q1) s
                         = word_or_substring (query_words_of q2) s).
  { intros s. apply bool_eq_iff. rewrite !word_or_substring_spec.
    unfold is_query_word, has_query_word_inside. rewrite Hw.
    split; (intros [H|(w & Hin & Hc)]; [left; exact H|right; exists w]);
      (split; [apply Hw, Hin|exact Hc]). }
  assert (Heq : collect_reasons p (query_words_of q1)
                = collect_reasons p (query_words_of q2)).
  { unfold collect_reasons.
    rewrite (filter_pointwise _ _ (p_tags p) Hs),
            (filter_pointwise _ _ (p_occasions p) Hs),
            (filter_pointwise _ _ (p_seasons p) He), !He. reflexivity. }
  split; [exact Heq|].
  unfold compute_match_reasons. cbv zeta. rewrite Heq. reflexivity.
Qed.

(** X15, on "leather boots" and "boots  leather boots". *)
Lemma reasons_depend_on_word_set_witness :
  compute_match_reasons leather_boots "leather boots"
  = compute_match_reasons leather_boots "boots  leather boots".
Proof.
  refine (proj2 (reasons_depend_on_word_set leather_boots
                   "leather boots" "boots  leather boots" _)).
  intros w. simpl. tauto.
Defined.

(** ** The colour rule at its edges *)

(** X16.  An item with no colours never gets the colour boost, whatever
    the favourite colours; and an empty string among the favourite
    colours, being a substring of every colour name, gives the boost to
    every item that has a colour. *)
Theorem color_rule_edges (fav : list string) (p : product) (score : R) :
  (p_colors p = [] -> color_boost fav p score = score)
  /\ (In EmptyString fav -> p_colors p <> [] ->
      color_boost fav p score = (score + 0.05)%R).
Proof.
  split.
  - intros Hc. unfold color_boost. destruct fav as [|fc fav]; [reflexivity|].
    rewrite Hc. cbv zeta. unfold any_color_match.
    assert (H : existsb (fun fc0 => existsb (fun pc => PyStr.contains fc0 pc)
                                      (map PyStr.lower [])) (fc :: fav) = false).
    { generalize (fc :: fav). intros l. induction l as [|x l IH]; simpl; [reflexivity|].
      exact IH. }
    rewrite H. reflexivity.
  - intros Hin Hc. unfold color_boost. destruct fav as [|fc fav]; [destruct Hin|].
    cbv zeta.
    assert (H : any_color_match (fc :: fav) (map PyStr.lower (p_colors p)) = true).
    { unfold any_color_match. apply existsb_exists. exists EmptyString.
      split; [exact Hin|]. destruct (p_colors p) as [|c cs]; [contradiction|].
      simpl. apply orb_true_iff. left.
      destruct (PyStr.lower c); reflexivity. }
    rewrite H. reflexivity.
Qed.

(** X16, on the wool coat and an empty favourite colour. *)
Lemma color_rule_edges_witness :
  color_boost [""] wool_coat 0.5 = (0.5 + 0.05)%R.
Proof.
  apply (proj2 (color_rule_edges [""] wool_coat 0.5%R)).
  - left. reflexivity.
  - discriminate.
Defined.

(** ** The test script's exit status *)

Lemma run_block_counts b t :
  TestSearch.passed (fst (TestSearch.run_block b t))
  = (TestSearch.passed t + length (List.filter (fun c => c) (checks_made b)))%nat
  /\ TestSearch.failed (fst (TestSearch.run_block b t))
     = (TestSearch.failed t + length (List.filter negb (checks_made b)))%nat
  /\ snd (TestSearch.run_block b t) = raises b.
Proof.
  revert t. induction b as [|st b IH]; intros t; simpl.
  - repeat split; lia.
  - destruct st as [c| |]; simpl.
    + destruct (IH (TestSearch.test c t)) as (Hp & Hf & Hr).
      rewrite Hp, Hf, Hr. destruct c; simpl; repeat split; lia.
    + apply IH.
    + repeat split; lia.
Qed.

Lemma run_blocks_counts bs t :
  let t' := fold_left (fun acc b => fst (TestSearch.run_block b acc)) bs t in
  TestSearch.passed t'
  = (TestSearch.passed t
     + length (List.filter (fun c => c) (flat_map checks_made bs)))%nat
  /\ TestSearch.failed t'
     = (TestSearch.failed t
        + length (List.filter negb (flat_map checks_made bs)))%nat.
Proof.
  cbv zeta. revert t. induction bs as [|b bs IH]; intros t; simpl; [lia|].
  destruct (IH (fst (TestSearch.run_block b t))) as [Hp Hf].
  destruct (run_block_counts b t) as (Hp1 & Hf1 & _).
  rewrite Hp, Hf, Hp1, Hf1, !List.filter_app, !length_app. lia.
Qed.

Lemma no_failed_check cs :
  length (List.filter negb cs) = 0%nat <-> forallb (fun c => c) cs = true.
Proof.
  induction cs as [|c cs IH]; simpl; [tauto|].
  destruct c; simpl; [exact IH|]. split; discriminate.
Qed.

(** X17.  What a run of the script reports.  When a statement of the
    health block raises, the process ends at once with status 1 and the
    later blocks are not run.  Otherwise the counters hold the checks that
    were reached, those of a search block only up to the statement that
    raised, and the status is 0 exactly when none of them failed: a search
    block that raises is not counted as a failure, so a run in which every
    search request crashes still ends with status 0. *)
Theorem test_script_exit_status (health_block : list TestSearch.stmt)
    (search_blocks : list (list TestSearch.stmt)) :
  let status := fst (TestSearch.run_script health_block search_blocks) in
  let t := snd (TestSearch.run_script health_block search_blocks) in
  let reached :=
    if raises health_block then checks_made health_block
    else checks_made health_block ++ flat_map checks_made search_blocks in
  TestSearch.passed t = length (List.filter (fun c => c) reached)
  /\ TestSearch.failed t = length (List.filter negb reached)
  /\ (status = 0%Z <->
      raises health_block = false /\ forallb (fun c => c) reached = true)
  /\ (status = 0%Z \/ status = 1%Z)
  /\ fst (TestSearch.run_script healthy_block
            (map (fun _ => [TestSearch.Raises]) search_blocks)) = 0%Z.
Proof.
  cbv zeta. unfold TestSearch.run_script.
  destruct (run_block_counts health_block
              {| TestSearch.passed := 0; TestSearch.failed := 0 |})
    as (Hp1 & Hf1 & Hr1).
  destruct (TestSearch.run_block health_block _) as [t1 raised].
  simpl in Hp1, Hf1, Hr1. subst raised.
  assert (Hlast : forall n : nat,
            fold_left (fun acc b => fst (TestSearch.run_block b acc))
              (repeat [TestSearch.Raises] n)
              {| TestSearch.passed := 3; TestSearch.failed := 0 |}
            = {| TestSearch.passed := 3; TestSearch.failed := 0 |}).
  { intros n. induction n as [|n IH]; simpl; [reflexivity|exact IH]. }
  assert (Hcrash : fst (let '(t0, raised) :=
                          TestSearch.run_block healthy_block
                            {| TestSearch.passed := 0; TestSearch.failed := 0 |} in
                        if raised then (1%Z, t0)
                        else (TestSearch.exit_code
                                (fold_left
                                   (fun acc b => fst (TestSearch.run_block b acc))
                                   (map (fun _ => [TestSearch.Raises]) search_blocks)
                                   t0),
                              fold_left
                                (fun acc b => fst (TestSearch.run_block b acc))
                                (map (fun _ => [TestSearch.Raises]) search_blocks)
                                t0)) = 0%Z).
  { simpl. rewrite map_const, Hlast. reflexivity. }
  destruct (raises health_block) eqn:Hraise; simpl.
  - split; [exact Hp1|]. split; [exact Hf1|].
    split; [split; [discriminate|intros [H _]; discriminate]|].
    split; [right; reflexivity|exact Hcrash].
  - destruct (run_blocks_counts search_blocks t1) as [Hp Hf]. cbv zeta in Hp, Hf.
    rewrite !List.filter_app, !length_app, Hp, Hf, Hp1, Hf1.
    split; [reflexivity|]. split; [reflexivity|].
    split.
    + unfold TestSearch.exit_code. rewrite Hf, Hf1, <- length_app, <- List.filter_app.
      destruct (Nat.eqb_spec
                  (length (List.filter negb
                             (checks_made health_block
                              ++ flat_map checks_made search_blocks))) 0)
        as [H0|Hn0].
      * split; [intros _; split; [reflexivity|apply no_failed_check, H0]|reflexivity].
      * split; [discriminate|]. intros [_ Hall]. apply no_failed_check in Hall.
        contradiction.
    + split; [|exact Hcrash].
      unfold TestSearch.exit_code. destruct (_ =? _)%nat; [left|right]; reflexivity.
Qed.


(** ** What preferences and positions can and cannot do *)

Lemma ids_of_rows_of_hits fav budget fav' budget' q ps hits :
  map r_id (rows_of_hits fav budget q ps hits)
  = map r_id (rows_of_hits fav' budget' q ps hits).
Proof.
  unfold rows_of_hits. induction hits as [|hit hits IH]; simpl; [reflexivity|].
  rewrite !map_app, IH. f_equal. unfold row_of_hit.
  destruct ((fst hit <? 0)%Z || (Z.of_nat (length ps) <=? fst hit)%Z); [reflexivity|].
  destruct (nth_error ps (Z.to_nat (fst hit))); reflexivity.
Qed.

(** X18.  Preferences change scores and order, never the selection: two
    requests with the same query and the same [top_k] that are both
    answered on the same store return the same items, as many times each,
    whatever their preferences. *)
Theorem preferences_keep_the_selection (req1 req2 : SearchRequest) (s : store)
    (resp1 resp2 : SearchResponse) (s1 s2 : store) :
  query req1 = query req2 -> top_k req1 = top_k req2 ->
  search_products req1 s = (Ok (SearchOk resp1), s1) ->
  search_products req2 s = (Ok (SearchOk resp2), s2) ->
  Permutation (map r_id (resp_products resp1)) (map r_id (resp_products resp2))
  /\ total_results resp1 = total_results resp2.
Proof.
  intros Hq Hk Hrun1 Hrun2.
  destruct (index s) as [ix|] eqn:Hix;
    [|rewrite search_products_not_ready in Hrun1 by (left; exact Hix); discriminate].
  destruct (model s) as [m|] eqn:Hm;
    [|rewrite search_products_not_ready in Hrun1 by (right; exact Hm); discriminate].
  rewrite (search_products_run req1 s ix m Hix Hm) in Hrun1.
  rewrite (search_products_run req2 s ix m Hix Hm) in Hrun2.
  rewrite <- Hq, <- Hk in Hrun2.
  destruct (index_search ix (query_vector m (query req1)) (top_k req1)) as [hits|e];
    [|discriminate].
  destruct (fav_colors_of (user_preferences req1)) as [fav1|e]; [|discriminate].
  destruct (fav_colors_of (user_preferences req2)) as [fav2|e]; [|discriminate].
  injection Hrun1 as <- _. injection Hrun2 as <- _. simpl.
  assert (Hperm : Permutation
            (map r_id (ranked_rows s req1 fav1 hits))
            (map r_id (ranked_rows s req2 fav2 hits))).
  { unfold ranked_rows, sort_results.
    rewrite (Permutation_map r_id (sort_perm score_geb _)).
    rewrite (Permutation_map r_id (sort_perm score_geb
               (rows_of_hits fav2 _ _ _ _))).
    rewrite <- Hq.
    rewrite (ids_of_rows_of_hits fav1 (budget_of (user_preferences req1))
               fav2 (budget_of (user_preferences req2))).
    reflexivity. }
  split; [exact Hperm|].
  apply Permutation_length in Hperm. rewrite !length_map in Hperm. exact Hperm.
Qed.

(** X18, on the worked catalog, with and without preferences. *)
Lemma preferences_keep_the_selection_witness :
  exists resp1 resp2,
    fst (search_products demo_request demo_store) = Ok (SearchOk resp1)
    /\ fst (search_products plain_request demo_store) = Ok (SearchOk resp2)
    /\ Permutation (map r_id (resp_products resp1)) (map r_id (resp_products resp2)).
Proof.
  destruct (search_products_returns demo_store demo_request ["red"]
              (proj1 demo_ready) eq_refl eq_refl) as (ix1 & m1 & _ & _ & Hrun1).
  destruct (search_products_returns demo_store plain_request []
              (proj1 demo_ready) eq_refl eq_refl) as (ix2 & m2 & _ & _ & Hrun2).
  cbv zeta in Hrun1, Hrun2. unfold response_of in Hrun1, Hrun2.
  eexists _, _. split; [rewrite Hrun1; reflexivity|].
  split; [rewrite Hrun2; reflexivity|].
  exact (proj1 (preferences_keep_the_selection demo_request plain_request demo_store
                  _ _ _ _ eq_refl eq_refl Hrun1 Hrun2)).
Defined.

(** X19.  The loop over the retrieved pairs never raises, whatever
    positions it is given: a pair whose position is negative or not below
    the catalog size is skipped and every other pair appends exactly one
    row, so the results grow by one row per pair with a position inside
    the catalog. *)
Theorem result_loop_never_raises (fav : list string) (budget : json) (q : string)
    (hits : list (Z * R)) (s : store) :
  exists s',
    for_each hits (search_step fav budget q) s = (Ok tt, s')
    /\ same_globals s s'
    /\ length (results s')
       = (length (results s)
          + length (List.filter
                      (fun hit => (0 <=? fst hit)%Z
                                  && (fst hit <? Z.of_nat (length (products s)))%Z)
                      hits))%nat.
Proof.
  eexists. split; [apply for_each_search_step_run|].
  split; [repeat split|].
  simpl. rewrite length_app. f_equal.
  unfold rows_of_hits. induction hits as [|hit hits IH]; simpl; [reflexivity|].
  rewrite length_app, IH. unfold row_of_hit.
  destruct (Z.ltb_spec (fst hit) 0) as [Hneg|Hpos]; simpl.
  - destruct (Z.leb_spec 0 (fst hit)); [lia|]. reflexivity.
  - destruct (Z.leb_spec 0 (fst hit)); [|lia]. simpl.
    destruct (Z.leb_spec (Z.of_nat (length (products s))) (fst hit)) as [Hout|Hin];
      destruct (Z.ltb_spec (fst hit) (Z.of_nat (length (products s)))); try lia;
      [reflexivity|].
    destruct (nth_error (products s) (Z.to_nat (fst hit))) eqn:E; [reflexivity|].
    apply nth_error_None in E. lia.
Qed.
